(** * WowUp hub addon provider: a shallow embedding and its properties

    Source: [wowup-electron/src/app/addon-providers/wowup-addon-provider.ts],
    class [WowUpAddonProvider].

    The provider talks to three injected collaborators (the Electron IPC
    bridge, the caching service and a circuit breaker around HTTP) and reads
    two ambient sources (the clock and the uuid generator).  The embedding
    makes them explicit:

    - a record [Env] holds everything the class receives from outside and
      whose code is not part of the provider file (configuration constants,
      imported helpers, the remote end of every HTTP call, the IPC scanner);
    - a record [World] holds what changes while the provider runs (the
      response cache, the list of requests that reached the circuit
      breaker, the console, the number of uuids drawn, the clock);
    - provider methods are functions in a state-and-exception monad [M]
      over [World]; a rejected promise or a thrown exception is [Throw].

    [async]/[await] is sequential inside one call, so one call of a method
    is one run of its monadic function; several calls running interleaved
    are outside the model, and the clock stands still during one call.

    The folders handed to [scan] are modelled by value, as distinct
    objects: [scan] returns them as it leaves them.  The methods embedded
    are the ones the properties below are about ([getAll], [scan],
    [getChangelog], [getReleaseById] and what they call); the other
    read-through queries of the class are left out. *)

From stdpp Require Import gmap strings list pretty.
From Stdlib Require Import ZArith Lia Ascii String.

Local Open Scope Z_scope.
Local Open Scope string_scope.

(** ** JavaScript built-ins used by the provider *)

Module Js.

(** A JavaScript number as the provider uses it: an integer, or [NaN]
    (what [parseInt] returns when no digit can be read).  Integers are
    kept exact. *)
Inductive Number := NaN | Int (z : Z).

Definition isWhiteSpace (c : ascii) : bool :=
  let n := nat_of_ascii c in
  ((9 <=? n) && (n <=? 13) || (n =? 32))%nat.

Definition digitValue (c : ascii) : option Z :=
  let n := nat_of_ascii c in
  if ((48 <=? n) && (n <=? 57))%nat then Some (Z.of_nat n - 48) else None.

Fixpoint skipWhiteSpace (s : string) : string :=
  match s with
  | String c r => if isWhiteSpace c then skipWhiteSpace r else s
  | EmptyString => s
  end.

Fixpoint parseDigits (acc : Z) (s : string) : Z :=
  match s with
  | String c r =>
      match digitValue c with
      | Some d => parseDigits (10 * acc + d) r
      | None => acc
      end
  | EmptyString => acc
  end.

(** [parseInt(s, 10)]: leading white space is skipped, one sign is
    accepted, the longest prefix of decimal digits is read and the rest
    of the string is ignored; without a digit the result is [NaN]. *)
Definition parseInt (s : string) : Number :=
  let t := skipWhiteSpace s in
  let '(sign, u) :=
    match t with
    | String "-" r => (-1, r)
    | String "+" r => (1, r)
    | _ => (1, t)
    end in
  match u with
  | String c _ =>
      match digitValue c with
      | Some _ => Int (sign * parseDigits 0 u)
      | None => NaN
      end
  | EmptyString => NaN
  end.

(** [n.toString()] on an integer. *)
Definition toString (z : Z) : string := pretty z.

(** [xs.join(sep)] on an array of strings. *)
Definition join (sep : string) (xs : list string) : string :=
  String.concat sep xs.

(** [a || b] on strings: the empty string is falsy. *)
Definition or_else (a b : string) : string :=
  if String.eqb a "" then b else a.

(** [o ?? d]. *)
Definition nullish {A} (o : option A) (d : A) : A :=
  match o with Some a => a | None => d end.

(** [isNaN(n)]. *)
Definition isNaN (n : Number) : bool :=
  match n with NaN => true | Int _ => false end.

(** [isFinite(n)].  The double nearest to an integer is infinite from the
    magnitude [2^1024 - 2^970] on; [parseInt] may read the digits after
    the twentieth as zeros, which matters only next to that bound. *)
Definition isFinite (n : Number) : bool :=
  match n with
  | NaN => false
  | Int z => Z.ltb (Z.abs z) (2 ^ 1024 - 2 ^ 970)
  end.

(** [n > 0]. *)
Definition positive (n : Number) : bool :=
  match n with NaN => false | Int z => Z.ltb 0 z end.

(** [!s] on a string: only the empty string is falsy. *)
Definition falsy (s : string) : bool := String.eqb s "".

End Js.

(** ** Enumerations

    Each enumeration is a module, so that a member reads as in the source:
    [WowClientType.Retail], [WowGameType.Retail]. *)

(** Modelled from the spec: the declaration of [WowClientType] is not part
    of the provider file.  The seven members are the ones the switch of
    [getWowGameType] names; [Other] stands for any other run-time value of
    the enumeration ("any unrecognized value" in the spec). *)
Module WowClientType.
Inductive t :=
| Retail
| Classic
| RetailPtr
| ClassicPtr
| Beta
| ClassicBeta
| ClassicEra
| Other (tag : nat).
End WowClientType.

(** The three members the provider names. *)
Module WowGameType.
Inductive t := Retail | Classic | BurningCrusade.
End WowGameType.

(** The two members the provider names. *)
Module AddonChannelType.
Inductive t := Stable | Beta.
End AddonChannelType.

(** [a === b] on game types. *)
Definition WowGameType_eqb (a b : WowGameType.t) : bool :=
  match a, b with
  | WowGameType.Retail, WowGameType.Retail
  | WowGameType.Classic, WowGameType.Classic
  | WowGameType.BurningCrusade, WowGameType.BurningCrusade => true
  | _, _ => false
  end.

(** ** Wire records

    The record declarations live in other files of the repository; the
    fields below are the ones the provider reads, with the types the
    provider's use of them asks for: a field the provider guards with [??]
    is optional. *)

Record WowUpAddonGameVersion := {
  gv_game_type : WowGameType.t;
  gv_version : option string;
  gv_interface : string;
  gv_title : option string;
  gv_authors : option string;
}.

Record WowUpAddonFolder := {
  raf_folder_name : string;
  raf_fingerprint : string;
}.

Record WowUpAddonReleaseRepresentation := {
  rel_id : Z;
  rel_tag_name : string;
  rel_prerelease : bool;
  rel_published_at : string;
  rel_download_url : string;
  rel_body : option string;
  rel_game_versions : list WowUpAddonGameVersion;
  rel_addonFolders : list WowUpAddonFolder;
}.

Record FundingLink := {
  link_platform : string;
  link_url : string;
}.

(** A catalog entry as the batch, featured and search endpoints return it. *)
Record WowUpAddonRepresentation := {
  rep_id : Z;
  rep_repository : string;
  rep_repository_name : string;
  rep_owner_name : string;
  rep_image_url : string;
  rep_owner_image_url : string;
  rep_description : string;
  rep_total_download_count : Z;
  rep_funding_links : list FundingLink;
  rep_releases : list WowUpAddonReleaseRepresentation;
}.

(** One element of [exactMatches] in the fingerprint response: a catalog
    entry together with the release whose folders matched. *)
Record FingerprintMatch := {
  fm_id : Z;
  fm_repository : string;
  fm_repository_name : string;
  fm_owner_name : string;
  fm_image_url : string;
  fm_source : string;
  fm_funding_links : list FundingLink;
  fm_matched_release : WowUpAddonReleaseRepresentation;
}.

Record GetAddonBatchResponse := {
  batch_addons : list WowUpAddonRepresentation;
}.

Record GetAddonsByFingerprintResponse := {
  exactMatches : list FingerprintMatch;
}.

Record WowUpGetAddonReleaseResponse := {
  release : option WowUpAddonReleaseRepresentation;
}.

(** ** Local records *)

Record WowInstallation := {
  inst_id : string;
  inst_clientType : WowClientType.t;
}.

(** [AppWowUpScanResult]: what the scanner returns for one folder, plus the
    [exactMatch] slot that [scan] fills in. *)
Record AppWowUpScanResult := {
  sr_path : string;
  sr_fingerprint : string;
  sr_folderName : string;
  sr_exactMatch : option FingerprintMatch;
}.

Record Addon := {
  addon_id : string;
  addon_author : string;
  addon_name : string;
  addon_channelType : AddonChannelType.t;
  addon_autoUpdateEnabled : bool;
  addon_clientType : WowClientType.t;
  addon_downloadUrl : string;
  addon_externalUrl : string;
  addon_externalId : string;
  addon_gameVersion : option string;
  addon_installedAt : Z;
  addon_installedFolders : string;
  addon_installedFolderList : list string;
  addon_installedVersion : string;
  addon_installedExternalReleaseId : string;
  addon_isIgnored : bool;
  addon_latestVersion : string;
  addon_providerName : string;
  addon_providerSource : string;
  addon_thumbnailUrl : string;
  addon_fundingLinks : list FundingLink;
  addon_isLoadOnDemand : bool;
  addon_releasedAt : string;
  addon_externalChannel : string;
  addon_latestChangelog : option string;
  addon_externalLatestReleaseId : string;
  addon_installationId : string;
}.

(** [AddonFolder]: a folder on disk; [scan] reads [path] and writes
    [matchingAddon]. *)
Record AddonFolder := {
  folder_path : string;
  folder_matchingAddon : option Addon;
}.

Record AddonSearchResultFile := {
  file_channelType : AddonChannelType.t;
  file_downloadUrl : string;
  file_folders : list string;
  file_gameVersion : option string;
  file_releaseDate : string;
  file_version : string;
  file_dependencies : list string;
  file_changelog : option string;
  file_externalId : string;
  file_title : option string;
  file_authors : option string;
}.

Record AddonSearchResult := {
  res_author : string;
  res_externalId : string;
  res_externalUrl : string;
  res_name : string;
  res_providerName : string;
  res_thumbnailUrl : string;
  res_downloadCount : Z;
  res_files : list AddonSearchResultFile;
  res_releasedAt : Z;
  res_screenshotUrl : string;
  res_screenshotUrls : list string;
  res_summary : string;
  res_fundingLinks : list FundingLink;
}.

(** ** Exceptions and results *)

Inductive Exn :=
| TypeError (msg : string)
| HttpError (msg : string)
| CircuitOpen
| Timeout
| IpcError (msg : string).

Inductive Result (A : Type) :=
| Ok (a : A)
| Throw (e : Exn).
Arguments Ok {A} a.
Arguments Throw {A} e.

(** The [TypeError] of reading a property of [undefined]. *)
Definition undefinedRead (property : string) : Exn :=
  TypeError
    ("Cannot read properties of undefined (reading '" +:+ property +:+ "')").

(** [SourceRemovedAddonError(addonId, innerError)]. *)
Record SourceRemovedAddonError := {
  err_addonId : string;
  err_innerError : option Exn;
}.

Record GetAllResult := {
  errors : list SourceRemovedAddonError;
  searchResults : list AddonSearchResult;
}.

(** ** The world the provider runs in *)

(** A call on the circuit breaker wrapper ([postJson] or [getJson]). *)
Inductive Request :=
| PostAddonIds (url : string) (addonIds : list Js.Number)
| PostFingerprints (url : string) (fingerprints : list string)
| GetJson (url : string).

(** One line written to the console. *)
Inductive LogEntry :=
| ConsoleTime (label : string)
| ConsoleTimeEnd (label : string)
| ConsoleLog (tag : string) (fingerprints : list string)
| ConsoleWarn (msg : string)
| ConsoleDebug (msg : string)
| ConsoleErrorScanResult (scanResult : AppWowUpScanResult)
| ConsoleErrorExn (err : Exn)
| ConsoleError (msg : string) (err : Exn).

(** An entry of the response cache.  In the modelled part of the provider
    only release lookups go through the cache, so an entry holds the
    response of a release lookup. *)
Record CacheEntry := {
  entry_value : option WowUpGetAddonReleaseResponse;
  entry_expiresAt : Z;
}.

Record World := {
  w_clock : Z;
  w_cache : gmap string CacheEntry;
  w_requests : list Request;
  w_console : list LogEntry;
  w_uuids : nat;
}.

(** Everything the provider gets from outside.  The three HTTP fields are
    the remote end behind the circuit breaker: given the requests made so
    far and the current one they answer or fail (breaker open, timeout,
    transport error). *)
Record Env := {
  API_URL : string;
  ADDON_PROVIDER_HUB : string;
  gameTypeString : WowGameType.t -> string;
  newURL : string -> Result string;
  getGameVersion : option string -> option string;
  getEnumName : AddonChannelType.t -> string;
  uuidSource : nat -> string;
  electronInvoke : list string -> Result (list AppWowUpScanResult);
  httpPostBatch :
    list Request -> string -> list Js.Number ->
    Result (option GetAddonBatchResponse);
  httpPostFingerprints :
    list Request -> string -> list string ->
    Result GetAddonsByFingerprintResponse;
  httpGetRelease :
    list Request -> string -> Result (option WowUpGetAddonReleaseResponse);
}.

Definition set_cache (c : gmap string CacheEntry) (w : World) : World :=
  {| w_clock := w_clock w; w_cache := c; w_requests := w_requests w;
     w_console := w_console w; w_uuids := w_uuids w |}.

Definition add_request (r : Request) (w : World) : World :=
  {| w_clock := w_clock w; w_cache := w_cache w;
     w_requests := w_requests w ++ [r];
     w_console := w_console w; w_uuids := w_uuids w |}.

Definition add_console (l : LogEntry) (w : World) : World :=
  {| w_clock := w_clock w; w_cache := w_cache w; w_requests := w_requests w;
     w_console := w_console w ++ [l]; w_uuids := w_uuids w |}.

Definition next_uuid (w : World) : World :=
  {| w_clock := w_clock w; w_cache := w_cache w; w_requests := w_requests w;
     w_console := w_console w; w_uuids := S (w_uuids w) |}.

(** ** The monad of provider methods *)

Definition M (A : Type) : Type := World -> Result A * World.

Definition ret {A} (a : A) : M A := fun w => (Ok a, w).

Definition throw {A} (e : Exn) : M A := fun w => (Throw e, w).

Definition bind {A B} (c : M A) (k : A -> M B) : M B :=
  fun w =>
    match c w with
    | (Ok a, w') => k a w'
    | (Throw e, w') => (Throw e, w')
    end.

(** [try { c } catch (e) { h e }]. *)
Definition try_catch {A} (c : M A) (h : Exn -> M A) : M A :=
  fun w =>
    match c w with
    | (Ok a, w') => (Ok a, w')
    | (Throw e, w') => h e w'
    end.

Definition liftResult {A} (r : Result A) : M A := fun w => (r, w).

Definition console (l : LogEntry) : M unit := fun w => (Ok tt, add_console l w).

(** [new Date()]. *)
Definition newDate : M Z := fun w => (Ok (w_clock w), w).

Declare Scope provider_scope.
Delimit Scope provider_scope with provider.
Notation "x <-- c ;; k" := (bind c (fun x => k))
  (at level 100, c at next level, right associativity) : provider_scope.
Notation "c ;;; k" := (bind c (fun _ => k))
  (at level 100, right associativity) : provider_scope.
Local Open Scope provider_scope.

(** [f] run on the elements from left to right, as [_.map] and [for ... of]
    do; the first exception ends the loop. *)
Fixpoint mapM {A B} (f : A -> M B) (xs : list A) : M (list B) :=
  match xs with
  | [] => ret []
  | x :: rest =>
      y <-- f x ;;
      ys <-- mapM f rest ;;
      ret (y :: ys)
  end.

(** ** The provider *)

Definition CHANGELOG_CACHE_TTL_SEC : Z := 30 * 60.

Section Provider.

Variable env : Env.

(** *** Collaborators *)

(** [this._circuitBreaker.postJson<GetAddonBatchResponse>(url, { addonIds })] *)
Definition postJsonBatch (url : string) (addonIds : list Js.Number)
  : M (option GetAddonBatchResponse) :=
  fun w =>
    (httpPostBatch env (w_requests w) url addonIds,
     add_request (PostAddonIds url addonIds) w).

(** [this._circuitBreaker.postJson<any>(url, { fingerprints })] *)
Definition postJsonFingerprints (url : string) (fingerprints : list string)
  : M GetAddonsByFingerprintResponse :=
  fun w =>
    (httpPostFingerprints env (w_requests w) url fingerprints,
     add_request (PostFingerprints url fingerprints) w).

(** [this._circuitBreaker.getJson<WowUpGetAddonReleaseResponse>(url)] *)
Definition getJsonRelease (url : string)
  : M (option WowUpGetAddonReleaseResponse) :=
  fun w =>
    (httpGetRelease env (w_requests w) url, add_request (GetJson url) w).

(** Modelled from the spec: [CachingService.transaction] is not part of
    the provider file.  Section 4.2 of the spec: a live (non-expired)
    entry is returned without invoking the fetch; otherwise the fetch
    runs, and its result is stored with [expiresAt = now + ttlSeconds];
    a failed fetch stores nothing and its error propagates.  The
    in-flight marker only matters to concurrent callers and is always
    released when one call ends. *)
Definition transaction (key : string)
    (fetchFn : M (option WowUpGetAddonReleaseResponse)) (ttlSeconds : Z)
  : M (option WowUpGetAddonReleaseResponse) :=
  fun w =>
    let fetch :=
      match fetchFn w with
      | (Ok v, w') =>
          (Ok v,
           set_cache
             (<[key := {| entry_value := v;
                          entry_expiresAt := w_clock w' + ttlSeconds |}]>
                (w_cache w')) w')
      | (Throw e, w') => (Throw e, w')
      end in
    match w_cache w !! key with
    | Some e =>
        if Z.ltb (w_clock w) (entry_expiresAt e) then (Ok (entry_value e), w)
        else fetch
    | None => fetch
    end.

(** [uuidv4()] *)
Definition uuidv4 : M string :=
  fun w => (Ok (uuidSource env (w_uuids w)), next_uuid w).

(** *** Pure helpers of the class *)

Definition getWowGameType (clientType : WowClientType.t) : WowGameType.t :=
  match clientType with
  | WowClientType.ClassicEra => WowGameType.Classic
  | WowClientType.Classic
  | WowClientType.ClassicPtr
  | WowClientType.ClassicBeta => WowGameType.BurningCrusade
  | WowClientType.Retail
  | WowClientType.RetailPtr
  | WowClientType.Beta
  | WowClientType.Other _ => WowGameType.Retail
  end.

Definition hasMatchingFingerprint (scanResult : AppWowUpScanResult)
    (release : WowUpAddonReleaseRepresentation) : bool :=
  existsb
    (fun addonFolder =>
       String.eqb (raf_fingerprint addonFolder) (sr_fingerprint scanResult))
    (rel_addonFolders release).

Definition getMatchingVersion (release : WowUpAddonReleaseRepresentation)
    (gameType : WowGameType.t) : option WowUpAddonGameVersion :=
  List.find (fun gv => WowGameType_eqb (gv_game_type gv) gameType)
    (rel_game_versions release).

Definition hasGameType (release : WowUpAddonReleaseRepresentation)
    (clientType : WowGameType.t) : bool :=
  match getMatchingVersion release clientType with
  | Some _ => true
  | None => false
  end.

Definition getAddonReleaseChannel (file : WowUpAddonReleaseRepresentation)
  : AddonChannelType.t :=
  if rel_prerelease file then AddonChannelType.Beta
  else AddonChannelType.Stable.

Definition getSearchResultFile (release : WowUpAddonReleaseRepresentation)
    (gameType : WowGameType.t) : AddonSearchResultFile :=
  let matchingVersion := getMatchingVersion release gameType in
  let version :=
    Js.nullish (matchingVersion ≫= gv_version) (rel_tag_name release) in
  {| file_channelType := getAddonReleaseChannel release;
     file_downloadUrl := rel_download_url release;
     file_folders := [];
     file_gameVersion := getGameVersion env (gv_interface <$> matchingVersion);
     file_releaseDate := rel_published_at release;
     file_version := version;
     file_dependencies := [];
     file_changelog := rel_body release;
     file_externalId := Js.toString (rel_id release);
     file_title := matchingVersion ≫= gv_title;
     file_authors := matchingVersion ≫= gv_authors |}.

Definition filterReleases (representation : WowUpAddonRepresentation)
    (gameType : WowGameType.t) : list WowUpAddonReleaseRepresentation :=
  List.filter
    (fun release =>
       existsb (fun gv => WowGameType_eqb (gv_game_type gv) gameType)
         (rel_game_versions release))
    (rep_releases representation).

Definition getSearchResult (representation : WowUpAddonRepresentation)
    (gameType : WowGameType.t) : M AddonSearchResult :=
  let clientReleases := filterReleases representation gameType in
  let searchResultFiles :=
    List.map (fun release => getSearchResultFile release gameType)
      clientReleases in
  let name :=
    Js.nullish (head searchResultFiles ≫= file_title)
      (rep_repository_name representation) in
  let authors :=
    Js.nullish (head searchResultFiles ≫= file_authors)
      (rep_owner_name representation) in
  now <-- newDate ;;
  ret {| res_author := authors;
         res_externalId := Js.toString (rep_id representation);
         res_externalUrl := rep_repository representation;
         res_name := name;
         res_providerName := ADDON_PROVIDER_HUB env;
         res_thumbnailUrl :=
           Js.or_else (rep_image_url representation)
             (rep_owner_image_url representation);
         res_downloadCount := rep_total_download_count representation;
         res_files := searchResultFiles;
         res_releasedAt := now;
         res_screenshotUrl := "";
         res_screenshotUrls := [];
         res_summary := rep_description representation;
         res_fundingLinks := rep_funding_links representation |}.

(** *** Methods *)

Definition getAll (installation : WowInstallation) (addonIds : list string)
  : M GetAllResult :=
  let gameType := getWowGameType (inst_clientType installation) in
  url <-- liftResult
            (newURL env
               (API_URL env +:+ "/addons/batch/"
                  +:+ gameTypeString env gameType)) ;;
  let addonIdList := List.map Js.parseInt addonIds in
  response <-- postJsonBatch url addonIdList ;;
  searchResults <--
    mapM (fun addon => getSearchResult addon gameType)
      (match response with Some r => batch_addons r | None => [] end) ;;
  let missingAddonIds :=
    List.filter
      (fun addonId =>
         match List.find (fun sr => String.eqb (res_externalId sr) addonId)
                 searchResults with
         | None => true
         | Some _ => false
         end)
      addonIds in
  let deletedErrors :=
    List.map
      (fun addonId => {| err_addonId := addonId; err_innerError := None |})
      missingAddonIds in
  ret {| errors := deletedErrors; searchResults := searchResults |}.

Definition getReleaseById (addonId releaseId : string)
  : M (option WowUpGetAddonReleaseResponse) :=
  url <-- liftResult
            (newURL env
               (API_URL env +:+ "/addons/" +:+ addonId +:+ "/releases/"
                  +:+ releaseId)) ;;
  transaction url (getJsonRelease url) CHANGELOG_CACHE_TTL_SEC.

Definition getChangelog (installation : WowInstallation)
    (externalId externalReleaseId : string) : M string :=
  console (ConsoleDebug "getChangelog") ;;;
  try_catch
    (addon <-- getReleaseById externalId externalReleaseId ;;
     ret (Js.nullish ((addon ≫= release) ≫= rel_body) ""))
    (fun e =>
       console (ConsoleError "Failed to get changelog" e) ;;;
       ret "").

Definition getScanResults (addonFolders : list AddonFolder)
  : M (list AppWowUpScanResult) :=
  let filePaths := List.map folder_path addonFolders in
  liftResult (electronInvoke env filePaths).

Definition getAddonsByFingerprints (fingerprints : list string)
  : M GetAddonsByFingerprintResponse :=
  let url := API_URL env +:+ "/addons/fingerprint" in
  postJsonFingerprints url fingerprints.

Definition set_exactMatch (clientMatch : option FingerprintMatch)
    (scanResult : AppWowUpScanResult) : AppWowUpScanResult :=
  {| sr_path := sr_path scanResult;
     sr_fingerprint := sr_fingerprint scanResult;
     sr_folderName := sr_folderName scanResult;
     sr_exactMatch := clientMatch |}.

Definition set_matchingAddon (newAddon : Addon) (addonFolder : AddonFolder)
  : AddonFolder :=
  {| folder_path := folder_path addonFolder;
     folder_matchingAddon := Some newAddon |}.

(** The matches of the response whose release lists the fingerprint of
    the scanned folder ([scan], the [filter] of the first loop). *)
Definition fingerprintMatchesOf
    (fingerprintResponse : GetAddonsByFingerprintResponse)
    (scanResult : AppWowUpScanResult) : list FingerprintMatch :=
  List.filter
    (fun exactMatch =>
       hasMatchingFingerprint scanResult (fm_matched_release exactMatch))
    (exactMatches fingerprintResponse).

(** Body of the first loop of [scan]. *)
Definition resolveExactMatch (gameType : WowGameType.t)
    (fingerprintResponse : GetAddonsByFingerprintResponse)
    (scanResult : AppWowUpScanResult) : M AppWowUpScanResult :=
  let fingerprintMatches :=
    fingerprintMatchesOf fingerprintResponse scanResult in
  clientMatch <--
    match List.find
            (fun exactMatch =>
               hasGameType (fm_matched_release exactMatch) gameType)
            fingerprintMatches with
    | Some m => ret (Some m)
    | None =>
        match fingerprintMatches with
        | first :: _ =>
            console
              (ConsoleWarn
                 ("No matching client type found for "
                    +:+ sr_folderName scanResult +:+ ", using fallback")) ;;;
            ret (Some first)
        | [] => ret None
        end
    end ;;
  ret (set_exactMatch clientMatch scanResult).

Definition getAddon (installation : WowInstallation)
    (addonChannelType : AddonChannelType.t) (scanResult : AppWowUpScanResult)
  : M Addon :=
  let gameType := getWowGameType (inst_clientType installation) in
  match sr_exactMatch scanResult with
  | None =>
      throw (undefinedRead "matched_release")
  | Some exactMatch =>
      let matched_release := fm_matched_release exactMatch in
      let folders :=
        List.map raf_folder_name (rel_addonFolders matched_release) in
      let folderList := Js.join ", " folders in
      let channelType := addonChannelType in
      matchingVersion <--
        match getMatchingVersion matched_release gameType with
        | Some mv => ret mv
        | None =>
            match rel_game_versions matched_release with
            | mv :: _ =>
                console
                  (ConsoleWarn
                     ("No matching version found: "
                        +:+ fm_repository_name exactMatch
                        +:+ ", using fallback " +:+ gv_interface mv)) ;;;
                ret mv
            | [] =>
                throw (undefinedRead "interface")
            end
        end ;;
      let name :=
        Js.nullish (gv_title matchingVersion) (fm_repository_name exactMatch) in
      let version :=
        Js.nullish (gv_version matchingVersion)
          (rel_tag_name matched_release) in
      let authors :=
        Js.nullish (gv_authors matchingVersion) (fm_owner_name exactMatch) in
      let interfaceVer := gv_interface matchingVersion in
      id <-- uuidv4 ;;
      installedAt <-- newDate ;;
      ret {| addon_id := id;
             addon_author := authors;
             addon_name := name;
             addon_channelType := channelType;
             addon_autoUpdateEnabled := false;
             addon_clientType := inst_clientType installation;
             addon_downloadUrl := rel_download_url matched_release;
             addon_externalUrl := fm_repository exactMatch;
             addon_externalId := Js.toString (fm_id exactMatch);
             addon_gameVersion := getGameVersion env (Some interfaceVer);
             addon_installedAt := installedAt;
             addon_installedFolders := folderList;
             addon_installedFolderList := folders;
             addon_installedVersion := version;
             addon_installedExternalReleaseId :=
               Js.toString (rel_id matched_release);
             addon_isIgnored := false;
             addon_latestVersion := version;
             addon_providerName := ADDON_PROVIDER_HUB env;
             addon_providerSource := fm_source exactMatch;
             addon_thumbnailUrl := fm_image_url exactMatch;
             addon_fundingLinks := fm_funding_links exactMatch;
             addon_isLoadOnDemand := false;
             addon_releasedAt := rel_published_at matched_release;
             addon_externalChannel := getEnumName env channelType;
             addon_latestChangelog := rel_body matched_release;
             addon_externalLatestReleaseId :=
               Js.toString (rel_id matched_release);
             addon_installationId := inst_id installation |}
  end.

(** [scan] up to the end of its first loop: the scan results with their
    [exactMatch] filled in. *)
Definition scanMatches (installation : WowInstallation)
    (addonFolders : list AddonFolder) : M (list AppWowUpScanResult) :=
  let gameType := getWowGameType (inst_clientType installation) in
  console (ConsoleTime "WowUpScan") ;;;
  scanResults <-- getScanResults addonFolders ;;
  console (ConsoleTimeEnd "WowUpScan") ;;;
  let fingerprints := List.map sr_fingerprint scanResults in
  console (ConsoleLog "[WowUpFingerprints]" fingerprints) ;;;
  fingerprintResponse <-- getAddonsByFingerprints fingerprints ;;
  mapM (resolveExactMatch gameType fingerprintResponse) scanResults.

(** Body of the second loop of [scan].  The loop writes into the folder
    objects it was given, so the body returns the folder as the
    iteration leaves it, next to how the iteration ended. *)
Definition scanFolder (installation : WowInstallation)
    (addonChannelType : AddonChannelType.t)
    (scanResults : list AppWowUpScanResult) (addonFolder : AddonFolder)
    (w : World) : Result unit * AddonFolder * World :=
  match List.find
          (fun sr => String.eqb (sr_path sr) (folder_path addonFolder))
          scanResults with
  | None =>
      (Throw (undefinedRead "exactMatch"),
       addonFolder, w)
  | Some scanResult =>
      match sr_exactMatch scanResult with
      | None => (Ok tt, addonFolder, w)
      | Some _ =>
          match getAddon installation addonChannelType scanResult w with
          | (Ok newAddon, w1) =>
              (Ok tt, set_matchingAddon newAddon addonFolder, w1)
          | (Throw err, w1) =>
              (Ok tt, addonFolder,
               add_console (ConsoleErrorExn err)
                 (add_console (ConsoleErrorScanResult scanResult) w1))
          end
      end
  end.

(** The second loop of [scan]: an exception that escapes one iteration
    ends the loop and leaves the remaining folders as they were. *)
Fixpoint scanFolders (installation : WowInstallation)
    (addonChannelType : AddonChannelType.t)
    (scanResults : list AppWowUpScanResult)
    (addonFolders : list AddonFolder) (w : World)
  : Result unit * list AddonFolder * World :=
  match addonFolders with
  | [] => (Ok tt, [], w)
  | addonFolder :: rest =>
      match scanFolder installation addonChannelType scanResults
              addonFolder w with
      | (Ok _, addonFolder', w1) =>
          let '(r, rest', w2) :=
            scanFolders installation addonChannelType scanResults rest w1 in
          (r, addonFolder' :: rest', w2)
      | (Throw e, addonFolder', w1) => (Throw e, addonFolder' :: rest, w1)
      end
  end.

(** [scan] returns nothing; its effect is on the folders, so the model
    returns them next to the way the call ended. *)
Definition scan (installation : WowInstallation)
    (addonChannelType : AddonChannelType.t)
    (addonFolders : list AddonFolder) (w : World)
  : Result unit * list AddonFolder * World :=
  match scanMatches installation addonFolders w with
  | (Ok scanResults, w1) =>
      scanFolders installation addonChannelType scanResults addonFolders w1
  | (Throw e, w1) => (Throw e, addonFolders, w1)
  end.

(** *** Derived notions used to state properties *)

(** The value the first loop of [scan] assigns to [exactMatch]. *)
Definition clientMatchOf (gameType : WowGameType.t)
    (fingerprintResponse : GetAddonsByFingerprintResponse)
    (scanResult : AppWowUpScanResult) : option FingerprintMatch :=
  let fingerprintMatches :=
    fingerprintMatchesOf fingerprintResponse scanResult in
  match List.find
          (fun exactMatch =>
             hasGameType (fm_matched_release exactMatch) gameType)
          fingerprintMatches with
  | Some m => Some m
  | None => head fingerprintMatches
  end.

(** The scan result the second loop of [scan] pairs with a folder. *)
Definition scanResultOf (scanResults : list AppWowUpScanResult)
    (addonFolder : AddonFolder) : option AppWowUpScanResult :=
  List.find (fun sr => String.eqb (sr_path sr) (folder_path addonFolder))
    scanResults.

(** [a] is an addon a pass of [scan] put on one of the folders: it sits
    on a folder after the pass and was not there before. *)
Definition producedByScan (installation : WowInstallation)
    (addonChannelType : AddonChannelType.t)
    (addonFolders : list AddonFolder) (w : World)
    (addonFolder : AddonFolder) (a : Addon) : Prop :=
  exists i addonFolder',
    addonFolders !! i = Some addonFolder /\
    (scan installation addonChannelType addonFolders w).1.2 !! i
      = Some addonFolder' /\
    folder_matchingAddon addonFolder' = Some a /\
    folder_matchingAddon addonFolder <> Some a.

End Provider.

(** ** The catalogue queries of the provider

    [getDescription], [getFeaturedAddons], [searchByQuery] and [getById]
    fetch through the caching service at response types the cache of
    [World] does not hold.  For them the caching service is a parameter,
    [cachingTransaction], as is the remote end of their GET requests: what
    is proved about these methods holds for any caching service. *)

Record WowUpGetAddonResponse := {
  addon : option WowUpAddonRepresentation;
}.

(** [WowUpGetAddonsResponse] and [WowUpSearchAddonsResponse]. *)
Record WowUpGetAddonsResponse := {
  addons : list WowUpAddonRepresentation;
}.

Section Queries.

Variable env : Env.

(** [this._cachingService.transaction(key, fetch, ttl)] *)
Variable cachingTransaction : forall T : Type, string -> M T -> Z -> M T.

(** The remote end of [getJson<WowUpGetAddonResponse>]. *)
Variable httpGetAddon :
  list Request -> string -> Result (option WowUpGetAddonResponse).

(** The remote end of [getJson<WowUpGetAddonsResponse>] and of
    [getJson<WowUpSearchAddonsResponse>]. *)
Variable httpGetAddons :
  list Request -> string -> Result (option WowUpGetAddonsResponse).

Definition getJsonAddon (url : string) : M (option WowUpGetAddonResponse) :=
  fun w => (httpGetAddon (w_requests w) url, add_request (GetJson url) w).

Definition getJsonAddons (url : string) : M (option WowUpGetAddonsResponse) :=
  fun w => (httpGetAddons (w_requests w) url, add_request (GetJson url) w).

Definition getAddonById (addonId : string)
  : M (option WowUpGetAddonResponse) :=
  url <-- liftResult (newURL env (API_URL env +:+ "/addons/" +:+ addonId)) ;;
  cachingTransaction _ url (getJsonAddon url) CHANGELOG_CACHE_TTL_SEC.

(** The result is [None] where the source returns [undefined]. *)
Definition getDescription (installation : WowInstallation)
    (externalId : string) : M (option string) :=
  try_catch
    (response <-- getAddonById externalId ;;
     match response with
     | Some r => ret (rep_description <$> addon r)
     | None => throw (undefinedRead "addon")
     end)
    (fun e =>
       console (ConsoleError "Failed to get description" e) ;;;
       ret (Some "")).

Definition shouldMigrate (a : Addon) : bool :=
  Js.falsy (addon_installedExternalReleaseId a).

Definition getFeaturedAddons (installation : WowInstallation)
  : M (list AddonSearchResult) :=
  let gameType := getWowGameType (inst_clientType installation) in
  url <-- liftResult
            (newURL env
               (API_URL env +:+ "/addons/featured/"
                  +:+ gameTypeString env gameType +:+ "?count=60")) ;;
  response <--
    cachingTransaction _ url (getJsonAddons url) CHANGELOG_CACHE_TTL_SEC ;;
  mapM (fun a => getSearchResult env a gameType)
    (match response with Some r => addons r | None => [] end).

Definition searchByQuery (query : string) (installation : WowInstallation)
  : M (list AddonSearchResult) :=
  let gameType := getWowGameType (inst_clientType installation) in
  url <-- liftResult
            (newURL env
               (API_URL env +:+ "/addons/search/"
                  +:+ gameTypeString env gameType +:+ "?query=" +:+ query
                  +:+ "&limit=10")) ;;
  response <-- cachingTransaction _ url (getJsonAddons url) 5 ;;
  mapM (fun a => getSearchResult env a gameType)
    (match response with Some r => addons r | None => [] end).

Definition isValidAddonUri : bool := false.

Definition isValidAddonId (addonId : string) : bool :=
  let idNumber := Js.parseInt addonId in
  negb (Js.isNaN idNumber) && Js.isFinite idNumber && Js.positive idNumber.

(** [getById] starts the lookup when it is called and hands out an
    observable of its mapped result; the model is the lookup followed by
    the mapping, a failed lookup or mapping being the error of the
    observable. *)
Definition getById (addonId : string) (installation : WowInstallation)
  : M AddonSearchResult :=
  let gameType := getWowGameType (inst_clientType installation) in
  url <-- liftResult (newURL env (API_URL env +:+ "/addons/" +:+ addonId)) ;;
  result <--
    cachingTransaction _ url (getJsonAddon url) CHANGELOG_CACHE_TTL_SEC ;;
  match result with
  | None => throw (undefinedRead "addon")
  | Some r =>
      match addon r with
      | None => throw (undefinedRead "releases")
      | Some representation => getSearchResult env representation gameType
      end
  end.

End Queries.

(** ** Concrete data

    A small installation used to run the model.  The hub knows an addon
    [bar] that ships the folders [Bar] (content [f1]) and [Baz] (content
    [f2]), in several releases, and an addon [qux] that ships the folder
    [Qux] (content [f9]).  On disk there are two folders: [/AddOns/Foo],
    which holds the content [f1] under another name, and [/AddOns/Qux]. *)

Module Samples.

Definition gvRetail : WowUpAddonGameVersion :=
  {| gv_game_type := WowGameType.Retail; gv_version := Some "1.2.3";
     gv_interface := "90005"; gv_title := Some "Bar Addon";
     gv_authors := Some "Alice" |}.

Definition gvClassic : WowUpAddonGameVersion :=
  {| gv_game_type := WowGameType.Classic; gv_version := Some "1.2.3-classic";
     gv_interface := "11307"; gv_title := Some "Bar Addon Classic";
     gv_authors := None |}.

Definition barFolders : list WowUpAddonFolder :=
  [ {| raf_folder_name := "Bar"; raf_fingerprint := "f1" |};
    {| raf_folder_name := "Baz"; raf_fingerprint := "f2" |} ].

Definition quxFolders : list WowUpAddonFolder :=
  [ {| raf_folder_name := "Qux"; raf_fingerprint := "f9" |} ].

Definition mkRelease (id : Z) (prerelease : bool)
    (game_versions : list WowUpAddonGameVersion)
    (addonFolders : list WowUpAddonFolder)
  : WowUpAddonReleaseRepresentation :=
  {| rel_id := id; rel_tag_name := "v1.2.3"; rel_prerelease := prerelease;
     rel_published_at := "2021-06-01T00:00:00Z";
     rel_download_url := "https://hub.example/download";
     rel_body := Some "notes"; rel_game_versions := game_versions;
     rel_addonFolders := addonFolders |}.

Definition mkMatch (id : Z) (repository_name : string)
    (matched_release : WowUpAddonReleaseRepresentation) : FingerprintMatch :=
  {| fm_id := id; fm_repository := "https://git.example/" +:+ repository_name;
     fm_repository_name := repository_name; fm_owner_name := "alice";
     fm_image_url := ""; fm_source := "github"; fm_funding_links := [];
     fm_matched_release := matched_release |}.

(** A prerelease of [bar] that declares the retail variant. *)
Definition retailMatch : FingerprintMatch :=
  mkMatch 1 "bar" (mkRelease 11 true [gvRetail] barFolders).

(** A release of [bar] that declares only the classic variant. *)
Definition classicMatch : FingerprintMatch :=
  mkMatch 2 "bar" (mkRelease 12 false [gvClassic] barFolders).

(** A release of [bar] that declares no game version. *)
Definition bareMatch : FingerprintMatch :=
  mkMatch 3 "bar" (mkRelease 13 false [] barFolders).

(** A release of [qux] that declares the retail variant. *)
Definition quxMatch : FingerprintMatch :=
  mkMatch 4 "qux" (mkRelease 14 false [gvRetail] quxFolders).

Definition fooFolder : AddonFolder :=
  {| folder_path := "/AddOns/Foo"; folder_matchingAddon := None |}.

Definition quxFolder : AddonFolder :=
  {| folder_path := "/AddOns/Qux"; folder_matchingAddon := None |}.

Definition fooScan : AppWowUpScanResult :=
  {| sr_path := "/AddOns/Foo"; sr_fingerprint := "f1";
     sr_folderName := "Foo"; sr_exactMatch := None |}.

Definition quxScan : AppWowUpScanResult :=
  {| sr_path := "/AddOns/Qux"; sr_fingerprint := "f9";
     sr_folderName := "Qux"; sr_exactMatch := None |}.

(** The scanner: [fooScan] for the path of [fooFolder], [quxScan] (at the
    given path) for any other. *)
Definition scanner (filePaths : list string)
  : Result (list AppWowUpScanResult) :=
  Ok (List.map
        (fun p =>
           if String.eqb p "/AddOns/Foo" then fooScan
           else {| sr_path := p; sr_fingerprint := "f9";
                   sr_folderName := "Qux"; sr_exactMatch := None |})
        filePaths).

Definition mkAddon (id : Z) (releases : list WowUpAddonReleaseRepresentation)
  : WowUpAddonRepresentation :=
  {| rep_id := id; rep_repository := "https://git.example/bar";
     rep_repository_name := "bar"; rep_owner_name := "alice";
     rep_image_url := ""; rep_owner_image_url := "https://img.example/a";
     rep_description := "An addon"; rep_total_download_count := 10;
     rep_funding_links := []; rep_releases := releases |}.

(** The hub: [matches] answers every fingerprint lookup, [addons] every
    batch lookup, [lookup] every release lookup. *)
Definition hub (matches : list FingerprintMatch)
    (addons : list WowUpAddonRepresentation)
    (lookup : Result (option WowUpGetAddonReleaseResponse)) : Env :=
  {| API_URL := "https://hub.example";
     ADDON_PROVIDER_HUB := "WowUpHub";
     gameTypeString :=
       fun g =>
         match g with
         | WowGameType.Retail => "retail"
         | WowGameType.Classic => "classic"
         | WowGameType.BurningCrusade => "burningCrusade"
         end;
     newURL := fun s => Ok s;
     getGameVersion := fun i => i;
     getEnumName :=
       fun c =>
         match c with
         | AddonChannelType.Stable => "Stable"
         | AddonChannelType.Beta => "Beta"
         end;
     uuidSource := fun n => "uuid-" +:+ pretty n;
     electronInvoke := scanner;
     httpPostBatch :=
       fun _ _ _ => Ok (Some {| batch_addons := addons |});
     httpPostFingerprints :=
       fun _ _ _ => Ok {| exactMatches := matches |};
     httpGetRelease := fun _ _ => lookup |}.

(** The fingerprint endpoint knows the prerelease of [bar] only. *)
Definition hubPrerelease : Env := hub [retailMatch] [] (Throw Timeout).

(** The fingerprint endpoint returns the classic release of [bar] before
    the retail one. *)
Definition hubTwoReleases : Env :=
  hub [classicMatch; retailMatch] [] (Throw Timeout).

(** The fingerprint endpoint knows [bar] by its release without game
    versions, and [qux]. *)
Definition hubBare : Env := hub [bareMatch; quxMatch] [] (Throw Timeout).

(** The batch endpoint returns the addons 1 and 3. *)
Definition batchAddons : list WowUpAddonRepresentation :=
  [mkAddon 1 [mkRelease 11 true [gvRetail] barFolders]; mkAddon 3 []].

Definition hubBatch : Env := hub [] batchAddons (Throw Timeout).

(** The release endpoint returns a release without body. *)
Definition hubNoBody : Env :=
  hub [] []
    (Ok (Some {| release := Some
       {| rel_id := 11; rel_tag_name := "v1"; rel_prerelease := false;
          rel_published_at := ""; rel_download_url := ""; rel_body := None;
          rel_game_versions := []; rel_addonFolders := [] |} |})).

Definition retailInstallation : WowInstallation :=
  {| inst_id := "install-1"; inst_clientType := WowClientType.Retail |}.

(** The channel preference of the sample passes. *)
Definition stable : AddonChannelType.t := AddonChannelType.Stable.

Definition world0 : World :=
  {| w_clock := 1000; w_cache := ∅; w_requests := []; w_console := [];
     w_uuids := 0 |}.

(** The addon a retail pass with preference [Stable] builds for
    [fooFolder] from [retailMatch], as the first addon of the pass. *)
Definition fooAddon : Addon :=
  {| addon_id := "uuid-0";
     addon_author := "Alice";
     addon_name := "Bar Addon";
     addon_channelType := AddonChannelType.Stable;
     addon_autoUpdateEnabled := false;
     addon_clientType := WowClientType.Retail;
     addon_downloadUrl := "https://hub.example/download";
     addon_externalUrl := "https://git.example/bar";
     addon_externalId := "1";
     addon_gameVersion := Some "90005";
     addon_installedAt := 1000;
     addon_installedFolders := "Bar, Baz";
     addon_installedFolderList := ["Bar"; "Baz"];
     addon_installedVersion := "1.2.3";
     addon_installedExternalReleaseId := "11";
     addon_isIgnored := false;
     addon_latestVersion := "1.2.3";
     addon_providerName := "WowUpHub";
     addon_providerSource := "github";
     addon_thumbnailUrl := "";
     addon_fundingLinks := [];
     addon_isLoadOnDemand := false;
     addon_releasedAt := "2021-06-01T00:00:00Z";
     addon_externalChannel := "Stable";
     addon_latestChangelog := Some "notes";
     addon_externalLatestReleaseId := "11";
     addon_installationId := "install-1" |}.

(** The scan results of a pass over [fooFolder] and [quxFolder] against
    [hubBare], after the first loop. *)
Definition bareScanResults : list AppWowUpScanResult :=
  [ set_exactMatch (Some bareMatch) fooScan;
    set_exactMatch (Some quxMatch) quxScan ].

(** The world after two passes in a row over the same folders. *)
Definition afterTwoPasses (env : Env) (addonFolders : list AddonFolder)
  : World :=
  let '(_, folders1, w1) :=
    scan env retailInstallation stable addonFolders world0 in
  (scan env retailInstallation stable folders1 w1).2.

End Samples.

(** More of the same installation, for the further properties. *)

Module MoreSamples.

Import Samples.

(** [e] with another folder scanner. *)
Definition withScanner
    (scanner : list string -> Result (list AppWowUpScanResult)) (e : Env)
  : Env :=
  {| API_URL := API_URL e;
     ADDON_PROVIDER_HUB := ADDON_PROVIDER_HUB e;
     gameTypeString := gameTypeString e;
     newURL := newURL e;
     getGameVersion := getGameVersion e;
     getEnumName := getEnumName e;
     uuidSource := uuidSource e;
     electronInvoke := scanner;
     httpPostBatch := httpPostBatch e;
     httpPostFingerprints := httpPostFingerprints e;
     httpGetRelease := httpGetRelease e |}.

(** [e] with another fingerprint endpoint. *)
Definition withFingerprintLookup
    (lookup :
       list Request -> string -> list string ->
       Result GetAddonsByFingerprintResponse) (e : Env) : Env :=
  {| API_URL := API_URL e;
     ADDON_PROVIDER_HUB := ADDON_PROVIDER_HUB e;
     gameTypeString := gameTypeString e;
     newURL := newURL e;
     getGameVersion := getGameVersion e;
     getEnumName := getEnumName e;
     uuidSource := uuidSource e;
     electronInvoke := electronInvoke e;
     httpPostBatch := httpPostBatch e;
     httpPostFingerprints := lookup;
     httpGetRelease := httpGetRelease e |}.

(** The folder scanner is down. *)
Definition hubScannerDown : Env :=
  withScanner (fun _ => Throw (IpcError "scanner down")) hubPrerelease.

(** The circuit breaker of the hub is open. *)
Definition hubLookupDown : Env :=
  withFingerprintLookup (fun _ _ _ => Throw CircuitOpen) hubPrerelease.

(** The scanner reports [fooScan] and nothing else, whatever it is asked. *)
Definition hubHalfScan : Env :=
  withScanner (fun _ => Ok [fooScan]) hubPrerelease.

(** The fingerprint endpoint knows the prerelease of [bar], and [qux]. *)
Definition hubBoth : Env := hub [retailMatch; quxMatch] [] (Throw Timeout).

(** The batch endpoint returns no addon. *)
Definition hubEmptyBatch : Env := hub [] [] (Throw Timeout).

(** A release that ships the content of both local folders. *)
Definition pairMatch : FingerprintMatch :=
  mkMatch 5 "pair"
    (mkRelease 16 false [gvRetail]
       [ {| raf_folder_name := "Bar"; raf_fingerprint := "f1" |};
         {| raf_folder_name := "Qux"; raf_fingerprint := "f9" |} ]).

(** The fingerprint endpoint knows that release only. *)
Definition hubPair : Env := hub [pairMatch] [] (Throw Timeout).

(** The folders after a pass over [fooFolder] and [quxFolder] against
    [hubPair]. *)
Definition pairFolders : list AddonFolder :=
  (scan hubPair retailInstallation stable [fooFolder; quxFolder] world0).1.2.

(** The addon on the folder at a position of [pairFolders]; [fooAddon]
    stands in where there is none. *)
Definition pairAddon (i : nat) : Addon :=
  default fooAddon (pairFolders !! i ≫= folder_matchingAddon).

(** A release of [bar] that declares the classic and the retail variant. *)
Definition bothVariants : WowUpAddonReleaseRepresentation :=
  mkRelease 15 false [gvClassic; gvRetail] barFolders.

(** A caching service that caches nothing. *)
Definition noCache : forall T : Type, string -> M T -> Z -> M T :=
  fun _ _ fetchFn _ => fetchFn.

(** The addon endpoint answers every lookup with [answer]. *)
Definition addonEndpoint (answer : Result (option WowUpGetAddonResponse))
  : list Request -> string -> Result (option WowUpGetAddonResponse) :=
  fun _ _ => answer.

(** The featured and search endpoints answer every lookup with [answer]. *)
Definition addonsEndpoint (answer : Result (option WowUpGetAddonsResponse))
  : list Request -> string -> Result (option WowUpGetAddonsResponse) :=
  fun _ _ => answer.

(** The folders after a pass over [fooFolder] and [quxFolder] against
    [hubBoth]. *)
Definition bothFolders : list AddonFolder :=
  (scan hubBoth retailInstallation stable [fooFolder; quxFolder] world0).1.2.

(** The addon on the folder at a position of [bothFolders]; [fooAddon]
    stands in where there is none. *)
Definition bothAddon (i : nat) : Addon :=
  default fooAddon (bothFolders !! i ≫= folder_matchingAddon).

End MoreSamples.

(** ** Notions used by the statements below *)

(** A step is quiet when it leaves the cache, the request list and the
    clock alone (it may write to the console and draw uuids). *)
Definition quiet (w w' : World) : Prop :=
  w_cache w' = w_cache w /\ w_requests w' = w_requests w
  /\ w_clock w' = w_clock w.

(** The variant table of the spec, section 4.3, in the spec's words: the
    classic-era kind maps to Classic, the three classic-family kinds map
    to the Burning-Crusade-era variant, everything else maps to Retail. *)
Definition variantTable (clientType : WowClientType.t) : WowGameType.t :=
  match clientType with
  | WowClientType.ClassicEra => WowGameType.Classic
  | WowClientType.Classic => WowGameType.BurningCrusade
  | WowClientType.ClassicPtr => WowGameType.BurningCrusade
  | WowClientType.ClassicBeta => WowGameType.BurningCrusade
  | _ => WowGameType.Retail
  end.

(** The folder names of the scanned folders that belong to a match: the
    scan results whose fingerprint the matched release lists. *)
Definition localFolderNames (scanResults : list AppWowUpScanResult)
    (exactMatch : FingerprintMatch) : list string :=
  List.map sr_folderName
    (List.filter
       (fun sr => hasMatchingFingerprint sr (fm_matched_release exactMatch))
       scanResults).

(** The URL of the fingerprint endpoint. *)
Definition fingerprintUrl (env : Env) : string :=
  API_URL env +:+ "/addons/fingerprint".

(** The fingerprint lookups among the requests made so far. *)
Definition fingerprintPosts (w : World) : list Request :=
  List.filter
    (fun r => match r with PostFingerprints _ _ => true | _ => false end)
    (w_requests w).

(** No returned addon carries the requested id. *)
Definition absentFrom (addons : list WowUpAddonRepresentation)
    (addonId : string) : Prop :=
  ~ In addonId (List.map (fun a => Js.toString (rep_id a)) addons).

(** What [getAddon] copies into the entity from the channel preference and
    from the match it was given. *)
Definition builtFromMatch (env : Env) (addonChannelType : AddonChannelType.t)
    (exactMatch : FingerprintMatch) (a : Addon) : Prop :=
  let matched_release := fm_matched_release exactMatch in
  addon_channelType a = addonChannelType
  /\ addon_externalChannel a = getEnumName env addonChannelType
  /\ addon_installedFolderList a
     = List.map raf_folder_name (rel_addonFolders matched_release)
  /\ addon_installedFolders a = Js.join ", " (addon_installedFolderList a)
  /\ addon_installedVersion a = addon_latestVersion a
  /\ addon_installedExternalReleaseId a = Js.toString (rel_id matched_release)
  /\ addon_externalLatestReleaseId a = Js.toString (rel_id matched_release).

(** What one iteration of the second loop of [scan] may do to a folder:
    nothing, or put on it an addon that [getAddon] built from the scan
    result found for the folder. *)
Definition folderStep (env : Env) (installation : WowInstallation)
    (addonChannelType : AddonChannelType.t)
    (scanResults : list AppWowUpScanResult)
    (addonFolder addonFolder' : AddonFolder) : Prop :=
  addonFolder' = addonFolder
  \/ exists scanResult a wa wb,
       scanResultOf scanResults addonFolder = Some scanResult
       /\ getAddon env installation addonChannelType scanResult wa = (Ok a, wb)
       /\ addonFolder' = set_matchingAddon a addonFolder.

(** The reading of the spec, section 4.3 step 6, for the release channel:
    an addon that [scan] puts on a folder carries the channel of the
    release it was matched with, as [getAddonReleaseChannel] derives it
    from the prerelease flag. *)
Definition channelFromPrerelease (env : Env) (installation : WowInstallation)
    (addonChannelType : AddonChannelType.t) (addonFolders : list AddonFolder)
    (w : World) : Prop :=
  forall addonFolder a scanResults w1 scanResult exactMatch,
    producedByScan env installation addonChannelType addonFolders w
      addonFolder a ->
    scanMatches env installation addonFolders w = (Ok scanResults, w1) ->
    scanResultOf scanResults addonFolder = Some scanResult ->
    sr_exactMatch scanResult = Some exactMatch ->
    addon_channelType a
      = getAddonReleaseChannel (fm_matched_release exactMatch).

(** The reading of the spec, section 4.3 step 6, for the installed
    folders: the list on an addon that [scan] puts on a folder has the
    local folder names of the scanned folders of its match as members, and
    the display string is that list joined. *)
Definition installedFoldersAreLocal (env : Env)
    (installation : WowInstallation) (addonChannelType : AddonChannelType.t)
    (addonFolders : list AddonFolder) (w : World) : Prop :=
  forall addonFolder a scanResults w1 scanResult exactMatch,
    producedByScan env installation addonChannelType addonFolders w
      addonFolder a ->
    scanMatches env installation addonFolders w = (Ok scanResults, w1) ->
    scanResultOf scanResults addonFolder = Some scanResult ->
    sr_exactMatch scanResult = Some exactMatch ->
    (forall name,
        In name (addon_installedFolderList a)
        <-> In name (localFolderNames scanResults exactMatch))
    /\ addon_installedFolders a
       = Js.join ", " (addon_installedFolderList a).

(** The reading of the spec, section 4.3 step 1, for the fingerprint
    lookup: a pass that follows another one at once, over the same
    folders, finds the answer in the cache and sends no lookup of its
    own. *)
Definition lookupServedFromCache (env : Env) (installation : WowInstallation)
    (addonChannelType : AddonChannelType.t) (addonFolders : list AddonFolder)
    (w : World) : Prop :=
  let '(_, folders1, w1) :=
    scan env installation addonChannelType addonFolders w in
  let '(_, _, w2) := scan env installation addonChannelType folders1 w1 in
  fingerprintPosts w2 = fingerprintPosts w1.

(** Case analysis along the branches of [getAddon]. *)
Ltac getAddon_cases inst sr :=
  unfold getAddon, bind, ret, throw, console, uuidv4, newDate;
  destruct (sr_exactMatch sr) as [exactMatch|] eqn:Hmatch; simpl;
  [ destruct (getMatchingVersion (fm_matched_release exactMatch)
                (getWowGameType (inst_clientType inst)))
      as [mv|] eqn:Hmv; simpl;
    [ | destruct (rel_game_versions (fm_matched_release exactMatch))
          as [|mv gvs] eqn:Hgvs; simpl ]
  | ].

(** The string is empty or starts with something else than a digit. *)
Definition noLeadingDigit (s : string) : Prop :=
  match s with
  | String c _ => Js.digitValue c = None
  | EmptyString => True
  end.

(** The first loop of [scan] resolves this scan result by fallback: some
    match lists its fingerprint, none of them declares the variant. *)
Definition needsFallback (gameType : WowGameType.t)
    (fingerprintResponse : GetAddonsByFingerprintResponse)
    (scanResult : AppWowUpScanResult) : bool :=
  match fingerprintMatchesOf fingerprintResponse scanResult with
  | [] => false
  | fingerprintMatches =>
      forallb
        (fun exactMatch =>
           negb (hasGameType (fm_matched_release exactMatch) gameType))
        fingerprintMatches
  end.

(** The diagnostic of the first loop for a scan result. *)
Definition fallbackWarning (scanResult : AppWowUpScanResult) : LogEntry :=
  ConsoleWarn
    ("No matching client type found for " +:+ sr_folderName scanResult
       +:+ ", using fallback").

(** The game version [getAddon] builds from: the one of the variant, else
    the first one the release declares. *)
Definition resolvedVersion (release : WowUpAddonReleaseRepresentation)
    (gameType : WowGameType.t) : option WowUpAddonGameVersion :=
  match getMatchingVersion release gameType with
  | Some gv => Some gv
  | None => head (rel_game_versions release)
  end.

(** A release declares at most one game version per variant (the data
    invariant the comment on [getMatchingVersion] states). *)
Definition oneVersionPerType (release : WowUpAddonReleaseRepresentation)
  : Prop :=
  forall gv1 gv2,
    In gv1 (rel_game_versions release) ->
    In gv2 (rel_game_versions release) ->
    gv_game_type gv1 = gv_game_type gv2 -> gv1 = gv2.

(** [a] with another identity: the id and the time of installation. *)
Definition withIdentity (id : string) (installedAt : Z) (a : Addon) : Addon :=
  {| addon_id := id;
     addon_author := addon_author a;
     addon_name := addon_name a;
     addon_channelType := addon_channelType a;
     addon_autoUpdateEnabled := addon_autoUpdateEnabled a;
     addon_clientType := addon_clientType a;
     addon_downloadUrl := addon_downloadUrl a;
     addon_externalUrl := addon_externalUrl a;
     addon_externalId := addon_externalId a;
     addon_gameVersion := addon_gameVersion a;
     addon_installedAt := installedAt;
     addon_installedFolders := addon_installedFolders a;
     addon_installedFolderList := addon_installedFolderList a;
     addon_installedVersion := addon_installedVersion a;
     addon_installedExternalReleaseId := addon_installedExternalReleaseId a;
     addon_isIgnored := addon_isIgnored a;
     addon_latestVersion := addon_latestVersion a;
     addon_providerName := addon_providerName a;
     addon_providerSource := addon_providerSource a;
     addon_thumbnailUrl := addon_thumbnailUrl a;
     addon_fundingLinks := addon_fundingLinks a;
     addon_isLoadOnDemand := addon_isLoadOnDemand a;
     addon_releasedAt := addon_releasedAt a;
     addon_externalChannel := addon_externalChannel a;
     addon_latestChangelog := addon_latestChangelog a;
     addon_externalLatestReleaseId := addon_externalLatestReleaseId a;
     addon_installationId := addon_installationId a |}.

(** ** Properties *)

Create HintDb provider.

Section Properties.

Variable env : Env.

(** *** The monad *)

Lemma quiet_refl w : quiet w w.
Proof. by unfold quiet. Qed.

Lemma quiet_trans w1 w2 w3 : quiet w1 w2 -> quiet w2 w3 -> quiet w1 w3.
Proof.
  unfold quiet. intros (-> & -> & ->) (-> & -> & ->). done.
Qed.

Lemma quiet_add_console l w : quiet w (add_console l w).
Proof. by unfold quiet. Qed.

Lemma quiet_next_uuid w : quiet w (next_uuid w).
Proof. by unfold quiet. Qed.

Hint Resolve quiet_refl quiet_add_console quiet_next_uuid : provider.

(** A loop whose body always returns, and is quiet, returns; [g] tells
    what the body returns from the clock, which a quiet body leaves
    alone. *)
Lemma mapM_total {A B} (f : A -> M B) (g : Z -> A -> B) (xs : list A) w :
  (forall x w0,
      exists w1, f x w0 = (Ok (g (w_clock w0) x), w1) /\ quiet w0 w1) ->
  exists w',
    mapM f xs w = (Ok (List.map (g (w_clock w)) xs), w') /\ quiet w w'.
Proof.
  intros Hf. revert w.
  induction xs as [|x xs IH]; intros w; simpl.
  - exists w. auto with provider.
  - destruct (Hf x w) as (w1 & Hx & Hq1).
    destruct (IH w1) as (w2 & Hxs & Hq2).
    exists w2. unfold bind. rewrite Hx. simpl. rewrite Hxs. simpl.
    destruct Hq1 as (Hc1 & Hr1 & Hk1). rewrite Hk1.
    split; [done|].
    eapply quiet_trans; [|exact Hq2]. by unfold quiet.
Qed.

Lemma lookup_map {A B} (f : A -> B) (xs : list A) (i : nat) :
  List.map f xs !! i = f <$> (xs !! i).
Proof.
  revert i. induction xs as [|x xs IH]; intros [|i]; simpl; auto.
Qed.

Lemma find_head_filter {A} (p : A -> bool) (xs : list A) :
  List.find p xs = head (List.filter p xs).
Proof.
  induction xs as [|x xs IH]; simpl; [done|].
  destruct (p x); simpl; auto.
Qed.

(** *** The first loop of [scan] *)

Lemma resolveExactMatch_run g resp sr w :
  exists w',
    resolveExactMatch g resp sr w
      = (Ok (set_exactMatch (clientMatchOf g resp sr) sr), w')
    /\ quiet w w'.
Proof.
  unfold resolveExactMatch, clientMatchOf, bind, ret.
  destruct (List.find _ (fingerprintMatchesOf resp sr)) as [m|]; simpl.
  - exists w. auto with provider.
  - destruct (fingerprintMatchesOf resp sr) as [|m fms]; simpl.
    + exists w. auto with provider.
    + eexists. split; [reflexivity | apply quiet_add_console].
Qed.

Lemma scanMatches_run inst folders w srs resp :
  electronInvoke env (List.map folder_path folders) = Ok srs ->
  httpPostFingerprints env (w_requests w) (fingerprintUrl env)
    (List.map sr_fingerprint srs) = Ok resp ->
  exists w',
    scanMatches env inst folders w
      = (Ok (List.map
               (fun sr =>
                  set_exactMatch
                    (clientMatchOf (getWowGameType (inst_clientType inst))
                       resp sr) sr)
               srs), w')
    /\ w_cache w' = w_cache w
    /\ w_requests w'
       = (w_requests w
            ++ [PostFingerprints (fingerprintUrl env)
                  (List.map sr_fingerprint srs)])%list.
Proof.
  intros Hipc Hpost.
  unfold scanMatches, bind, console, getScanResults, liftResult. simpl.
  rewrite Hipc. simpl.
  unfold getAddonsByFingerprints, postJsonFingerprints. simpl.
  unfold fingerprintUrl in Hpost. rewrite Hpost.
  edestruct (mapM_total
               (resolveExactMatch (getWowGameType (inst_clientType inst)) resp)
               (fun _ sr =>
                  set_exactMatch
                    (clientMatchOf (getWowGameType (inst_clientType inst))
                       resp sr) sr))
    as (w' & Hrun & Hq);
    [intros x w0; apply resolveExactMatch_run|].
  rewrite Hrun. exists w'. split; [done|].
  destruct Hq as (Hc & Hr & _). rewrite Hc, Hr. done.
Qed.

(** C2. In [scan], when a scanned folder has at least two fingerprint
    matches and exactly one of them comes with a release that declares a
    game version for the target variant, that match is what the first loop
    leaves in the [exactMatch] field of the folder's scan result, wherever
    it stands in the response; the other fields of the scan result are
    those the scanner gave. *)
Theorem scan_prefers_target_variant inst folders w srs resp i sr m :
  electronInvoke env (List.map folder_path folders) = Ok srs ->
  httpPostFingerprints env (w_requests w) (fingerprintUrl env)
    (List.map sr_fingerprint srs) = Ok resp ->
  srs !! i = Some sr ->
  let gameType := getWowGameType (inst_clientType inst) in
  let declares :=
    fun exactMatch => hasGameType (fm_matched_release exactMatch) gameType in
  (2 <= List.length (fingerprintMatchesOf resp sr))%nat ->
  List.length (List.filter declares (fingerprintMatchesOf resp sr)) = 1%nat ->
  In m (fingerprintMatchesOf resp sr) ->
  declares m = true ->
  exists srs' w' sr',
    scanMatches env inst folders w = (Ok srs', w')
    /\ srs' !! i = Some sr'
    /\ sr_exactMatch sr' = Some m
    /\ sr_path sr' = sr_path sr
    /\ sr_fingerprint sr' = sr_fingerprint sr
    /\ sr_folderName sr' = sr_folderName sr.
Proof.
  intros Hipc Hpost Hi gameType declares _ Hone Hin Hm.
  destruct (scanMatches_run inst folders w srs resp Hipc Hpost)
    as (w' & Hrun & _).
  eexists _, w', _. split; [exact Hrun|].
  split; [by rewrite lookup_map, Hi|].
  split; [|by repeat split].
  simpl. unfold clientMatchOf. fold gameType. fold declares.
  rewrite find_head_filter.
  assert (Hf : In m (List.filter declares (fingerprintMatchesOf resp sr)))
    by (apply filter_In; auto).
  destruct (List.filter declares (fingerprintMatchesOf resp sr))
    as [|x [|y l]]; simpl in *; try discriminate.
  destruct Hf as [->|[]]. reflexivity.
Qed.

(** C9. The client-kind-to-variant mapping of the provider is the table
    of the spec on every input: classic era gives Classic, the three
    classic kinds give BurningCrusade, retail, retail PTR, beta and any
    other value give Retail. *)
Theorem getWowGameType_table :
  (forall clientType, getWowGameType clientType = variantTable clientType)
  /\ getWowGameType WowClientType.ClassicEra = WowGameType.Classic
  /\ getWowGameType WowClientType.Classic = WowGameType.BurningCrusade
  /\ getWowGameType WowClientType.ClassicPtr = WowGameType.BurningCrusade
  /\ getWowGameType WowClientType.ClassicBeta = WowGameType.BurningCrusade
  /\ getWowGameType WowClientType.Retail = WowGameType.Retail
  /\ getWowGameType WowClientType.RetailPtr = WowGameType.Retail
  /\ getWowGameType WowClientType.Beta = WowGameType.Retail
  /\ (forall tag,
         getWowGameType (WowClientType.Other tag) = WowGameType.Retail).
Proof.
  split; [intros []; reflexivity|]. repeat split; reflexivity.
Qed.

(** *** [getAddon] *)

Lemma getAddon_quiet inst ch sr w r w' :
  getAddon env inst ch sr w = (r, w') -> quiet w w'.
Proof.
  getAddon_cases inst sr; intros [= <- <-]; unfold quiet; simpl; auto.
Qed.

Lemma getAddon_built inst ch sr w a w' :
  getAddon env inst ch sr w = (Ok a, w') ->
  exists exactMatch,
    sr_exactMatch sr = Some exactMatch /\ builtFromMatch env ch exactMatch a.
Proof.
  getAddon_cases inst sr; intros [= <- <-];
    exists exactMatch; (split; [reflexivity|]);
    unfold builtFromMatch; simpl; repeat split; reflexivity.
Qed.

(** [getAddon] returns as soon as the matched release declares some game
    version, for the target variant or not. *)
Lemma getAddon_returns inst ch sr m w :
  sr_exactMatch sr = Some m ->
  rel_game_versions (fm_matched_release m) <> [] ->
  exists a w', getAddon env inst ch sr w = (Ok a, w').
Proof.
  intros Hsome Hne. revert Hsome.
  getAddon_cases inst sr; intros [= <-]; try (eexists _, _; reflexivity).
  rewrite Hgvs in Hne. done.
Qed.

(** [getAddon] throws when the matched release declares no game version
    at all: the fallback [game_versions[0]] is undefined and the message
    of the diagnostic reads its [interface]. *)
Lemma getAddon_throws inst ch sr m w :
  sr_exactMatch sr = Some m ->
  rel_game_versions (fm_matched_release m) = [] ->
  getAddon env inst ch sr w
    = (Throw (undefinedRead "interface"), w).
Proof.
  intros Hsome Hnil. revert Hsome.
  getAddon_cases inst sr; intros [= <-]; try reflexivity.
  - unfold getMatchingVersion in Hmv. rewrite Hnil in Hmv. done.
  - rewrite Hgvs in Hnil. done.
Qed.

(** *** The second loop of [scan] *)

Lemma scanFolder_step inst ch srs af w r af' w' :
  scanFolder env inst ch srs af w = (r, af', w') ->
  quiet w w' /\ folderStep env inst ch srs af af'.
Proof.
  unfold scanFolder, folderStep, scanResultOf.
  destruct (List.find _ srs) as [sr|] eqn:Hfind.
  - destruct (sr_exactMatch sr) as [m|] eqn:Hm.
    + destruct (getAddon env inst ch sr w) as [[a|e] w1] eqn:Hget;
        intros [= <- <- <-]; apply getAddon_quiet in Hget as Hq.
      * split; [done|]. right. by exists sr, a, w, w1.
      * split; [|by left].
        eapply quiet_trans; [exact Hq|].
        eapply quiet_trans; apply quiet_add_console.
    + intros [= <- <- <-]. split; [apply quiet_refl | by left].
  - intros [= <- <- <-]. split; [apply quiet_refl | by left].
Qed.

Lemma scanFolders_steps inst ch srs folders w r folders' w' :
  scanFolders env inst ch srs folders w = (r, folders', w') ->
  quiet w w' /\ Forall2 (folderStep env inst ch srs) folders folders'.
Proof.
  revert w r folders' w'.
  induction folders as [|af rest IH]; intros w r folders' w'; simpl.
  - intros [= <- <- <-]. split; [apply quiet_refl | constructor].
  - destruct (scanFolder env inst ch srs af w) as [[[[]|e] af1] w1] eqn:Hstep;
      apply scanFolder_step in Hstep as [Hq Hone].
    + destruct (scanFolders env inst ch srs rest w1)
        as [[r2 rest2] w2] eqn:Hrest.
      intros [= <- <- <-]. apply IH in Hrest as [Hq2 Hall].
      split; [by eapply quiet_trans | by constructor].
    + intros [= <- <- <-]. split; [done|].
      constructor; [done|].
      clear. induction rest; constructor; [by left | done].
Qed.

Lemma scanFolders_app inst ch srs pre post w0 pre' w :
  scanFolders env inst ch srs pre w0 = (Ok tt, pre', w) ->
  scanFolders env inst ch srs (pre ++ post)%list w0
    = (let '(r, post', w3) := scanFolders env inst ch srs post w in
       (r, (pre' ++ post')%list, w3)).
Proof.
  revert w0 pre'.
  induction pre as [|af pre IH]; intros w0 pre'; simpl.
  - intros [= <- <-]. simpl.
    by destruct (scanFolders _ _ _ _ post w0) as [[? ?] ?].
  - destruct (scanFolder env inst ch srs af w0) as [[[[]|e] af1] w1]; [|done].
    destruct (scanFolders env inst ch srs pre w1) as [[r2 pre2] w2] eqn:Hpre.
    intros [= -> <- <-]. rewrite (IH _ _ Hpre). simpl.
    by destruct (scanFolders _ _ _ _ post w2) as [[? ?] ?].
Qed.

(** Every addon a pass of [scan] puts on a folder was built by
    [getAddon] from the scan result of that folder, as the first loop
    left it. *)
Lemma producedByScan_built inst ch folders w af a :
  producedByScan env inst ch folders w af a ->
  exists srs w1 sr exactMatch,
    scanMatches env inst folders w = (Ok srs, w1)
    /\ scanResultOf srs af = Some sr
    /\ sr_exactMatch sr = Some exactMatch
    /\ builtFromMatch env ch exactMatch a.
Proof.
  intros (i & af' & Hi & Hi' & Ha & Hnew). revert Hi'. unfold scan.
  destruct (scanMatches env inst folders w) as [[srs|e] w1] eqn:Hm; simpl.
  - destruct (scanFolders env inst ch srs folders w1)
      as [[r folders'] w2] eqn:Hf.
    simpl. intros Hi'.
    apply scanFolders_steps in Hf as [_ Hall].
    destruct (Forall2_lookup_lr _ _ _ _ _ _ Hall Hi Hi')
      as [->|(sr & a0 & wa & wb & Hsr & Hget & ->)]; [done|].
    simpl in Ha. injection Ha as ->.
    apply getAddon_built in Hget as (m & Hsome & Hbuilt).
    by exists srs, w1, sr, m.
  - intros Hi'. rewrite Hi in Hi'. injection Hi' as <-. done.
Qed.

(** *** Addons produced by a pass *)

(** C1, as amended. An addon that [scan] puts on a folder carries the
    channel preference [scan] was called with, as channel and, by name,
    as external channel, whatever the prerelease flag of the matched
    release.  The channel derived from the prerelease flag (Beta for a
    prerelease, Stable otherwise) is what [getAddonReleaseChannel]
    computes and what the files of a search result carry. *)
Theorem scan_channel_is_preference inst ch folders w af a :
  producedByScan env inst ch folders w af a ->
  addon_channelType a = ch
  /\ addon_externalChannel a = getEnumName env ch
  /\ (forall release,
         getAddonReleaseChannel release
         = if rel_prerelease release then AddonChannelType.Beta
           else AddonChannelType.Stable)
  /\ (forall release gameType,
         file_channelType (getSearchResultFile env release gameType)
         = getAddonReleaseChannel release).
Proof.
  intros Hp.
  apply producedByScan_built in Hp
    as (srs & w1 & sr & m & _ & _ & _ & Hch & Hext & _).
  repeat split; auto.
Qed.

(** C6, as amended. On an addon that [scan] puts on a folder, the list
    of installed folders is the list of folder names the matched release
    declares, in the order of the release, and the display string is
    that list joined with a comma and a space. *)
Theorem scan_installed_folders_from_release inst ch folders w af a :
  producedByScan env inst ch folders w af a ->
  exists srs w1 sr exactMatch,
    scanMatches env inst folders w = (Ok srs, w1)
    /\ scanResultOf srs af = Some sr
    /\ sr_exactMatch sr = Some exactMatch
    /\ addon_installedFolderList a
       = List.map raf_folder_name
           (rel_addonFolders (fm_matched_release exactMatch))
    /\ addon_installedFolders a
       = Js.join ", "
           (List.map raf_folder_name
              (rel_addonFolders (fm_matched_release exactMatch))).
Proof.
  intros Hp.
  apply producedByScan_built in Hp
    as (srs & w1 & sr & m & Hm & Hsr & Hsome & _ & _ & Hl & Hj & _).
  exists srs, w1, sr, m. rewrite <- Hl. auto.
Qed.

(** C10. An addon that [scan] puts on a folder has its installed version
    equal to its latest version and its installed external release id
    equal to its latest external release id. *)
Theorem scan_installed_is_latest inst ch folders w af a :
  producedByScan env inst ch folders w af a ->
  addon_installedVersion a = addon_latestVersion a
  /\ addon_installedExternalReleaseId a = addon_externalLatestReleaseId a.
Proof.
  intros Hp.
  apply producedByScan_built in Hp
    as (srs & w1 & sr & m & _ & _ & _ & _ & _ & _ & _ & Hv & Hi & Hl).
  split; [done | congruence].
Qed.



(** C4, as amended. The fingerprint lookup of [scan] is a POST sent
    straight to the circuit breaker on every pass, with the list of all
    local fingerprints as body: whatever the cache holds, a pass whose
    folder scan succeeded adds exactly that request to the requests made
    so far and leaves the cache as it found it. *)
Theorem scan_posts_fingerprints_uncached inst ch folders w srs :
  electronInvoke env (List.map folder_path folders) = Ok srs ->
  exists r folders' w',
    scan env inst ch folders w = (r, folders', w')
    /\ w_cache w' = w_cache w
    /\ w_requests w'
       = (w_requests w
            ++ [PostFingerprints (fingerprintUrl env)
                  (List.map sr_fingerprint srs)])%list.
Proof.
  intros Hipc. unfold scan.
  destruct (httpPostFingerprints env (w_requests w) (fingerprintUrl env)
              (List.map sr_fingerprint srs)) as [resp|e] eqn:Hpost.
  - destruct (scanMatches_run inst folders w srs resp Hipc Hpost)
      as (w1 & -> & Hc & Hr).
    destruct (scanFolders env inst ch _ folders w1) as [[r folders'] w2] eqn:Hf.
    apply scanFolders_steps in Hf as [(Hc2 & Hr2 & _) _].
    exists r, folders', w2. rewrite Hc2, Hr2. auto.
  - unfold scanMatches, bind, console, getScanResults, liftResult. simpl.
    rewrite Hipc. simpl.
    unfold getAddonsByFingerprints, postJsonFingerprints. simpl.
    unfold fingerprintUrl in Hpost. rewrite Hpost.
    eexists _, _, _. split; [reflexivity|]. simpl. auto.
Qed.

(** *** [getAll] *)

Lemma mapM_Forall2 {A B} (f : A -> M B) (R : A -> B -> Prop) xs w :
  (forall x w0,
      exists y w1, f x w0 = (Ok y, w1) /\ quiet w0 w1 /\ R x y) ->
  exists ys w', mapM f xs w = (Ok ys, w') /\ quiet w w' /\ Forall2 R xs ys.
Proof.
  intros Hf. revert w.
  induction xs as [|x xs IH]; intros w; simpl.
  - exists [], w. split; [done|]. split; [apply quiet_refl | constructor].
  - destruct (Hf x w) as (y & w1 & Hx & Hq1 & Hr).
    destruct (IH w1) as (ys & w2 & Hxs & Hq2 & Hall).
    exists (y :: ys), w2. unfold bind. rewrite Hx. simpl. rewrite Hxs. simpl.
    split; [done|]. split; [by eapply quiet_trans | by constructor].
Qed.

Lemma getSearchResult_run representation gameType w :
  exists sr,
    getSearchResult env representation gameType w = (Ok sr, w)
    /\ res_externalId sr = Js.toString (rep_id representation).
Proof.
  unfold getSearchResult, bind, newDate, ret. eexists. split; reflexivity.
Qed.

Lemma find_externalId_None (srs : list AddonSearchResult) addonId :
  List.find (fun sr => String.eqb (res_externalId sr) addonId) srs = None
  <-> ~ In addonId (List.map res_externalId srs).
Proof.
  induction srs as [|sr srs IH]; simpl; [tauto|].
  destruct (String.eqb_spec (res_externalId sr) addonId) as [Heq|Hne].
  - split; [discriminate | intros H; exfalso; apply H; by left].
  - rewrite IH. tauto.
Qed.

Lemma count_occ_filter (p : string -> bool) (l : list string) x :
  count_occ string_dec (List.filter p l) x
  = if p x then count_occ string_dec l x else 0%nat.
Proof.
  induction l as [|y l IH]; simpl; [by destruct (p x)|].
  destruct (string_dec y x) as [->|Hne].
  - destruct (p x) eqn:Hp; simpl; [|exact IH].
    destruct (string_dec x x); [by rewrite IH | done].
  - destruct (p y); simpl; [|exact IH].
    destruct (string_dec y x); [done | exact IH].
Qed.

(** An id written the way the hub's ids print is absent exactly when no
    returned addon has that number. *)
Lemma absentFrom_toString addons (z : Z) :
  absentFrom addons (Js.toString z) <-> ~ In z (List.map rep_id addons).
Proof.
  unfold absentFrom. rewrite !in_map_iff.
  split; intros H (a & Ha & Hin); apply H; exists a.
  - by subst.
  - split; [|done]. unfold Js.toString in Ha. by apply pretty_Z_inj in Ha.
Qed.

(** C5. When the batch request of [getAll] is answered, the call
    returns: the result holds one search result per returned addon, in
    order, and for each requested id that no returned addon carries it
    holds a [SourceRemovedAddonError] for every time the id was
    requested (one when it was requested once) and none for the ids that
    were returned. *)
Theorem getAll_partial_batch inst addonIds w url response :
  let gameType := getWowGameType (inst_clientType inst) in
  let addons :=
    match response with Some r => batch_addons r | None => [] end in
  newURL env (API_URL env +:+ "/addons/batch/" +:+ gameTypeString env gameType)
    = Ok url ->
  httpPostBatch env (w_requests w) url (List.map Js.parseInt addonIds)
    = Ok response ->
  exists result w',
    getAll env inst addonIds w = (Ok result, w')
    /\ Forall2
         (fun addon sr =>
            (exists wa wb,
                getSearchResult env addon gameType wa = (Ok sr, wb))
            /\ res_externalId sr = Js.toString (rep_id addon))
         addons (searchResults result)
    /\ (forall addonId,
           absentFrom addons addonId ->
           count_occ string_dec (List.map err_addonId (errors result)) addonId
           = count_occ string_dec addonIds addonId)
    /\ (forall addonId,
           ~ absentFrom addons addonId ->
           count_occ string_dec (List.map err_addonId (errors result)) addonId
           = 0%nat)
    /\ Forall (fun e => err_innerError e = None) (errors result).
Proof.
  intros gameType addons Hurl Hpost.
  unfold getAll, bind, liftResult, postJsonBatch. fold gameType.
  rewrite Hurl. simpl. rewrite Hpost. fold addons.
  edestruct (mapM_Forall2 (fun addon => getSearchResult env addon gameType)
               (fun addon sr =>
                  (exists wa wb,
                      getSearchResult env addon gameType wa = (Ok sr, wb))
                  /\ res_externalId sr = Js.toString (rep_id addon))
               addons) as (srs & w' & Hrun & _ & Hall).
  { intros addon w0.
    destruct (getSearchResult_run addon gameType w0) as (sr & Hsr & Hid).
    exists sr, w0. split; [done|]. split; [apply quiet_refl|].
    split; [by exists w0, w0 | done]. }
  rewrite Hrun. unfold ret. eexists _, w'. split; [reflexivity|]. simpl.
  assert (Hids : List.map res_externalId srs
                 = List.map (fun a => Js.toString (rep_id a)) addons).
  { clear Hrun. induction Hall as [|a sr l k [_ Hid] _ IH]; simpl;
      [done | by rewrite Hid, IH]. }
  split; [exact Hall|].
  rewrite map_map. simpl. rewrite map_id.
  repeat split.
  - intros addonId Habs. rewrite count_occ_filter.
    unfold absentFrom in Habs. rewrite <- Hids in Habs.
    apply find_externalId_None in Habs. by rewrite Habs.
  - intros addonId Hpres. rewrite count_occ_filter.
    destruct (List.find _ srs) eqn:Hfind; [done|].
    apply find_externalId_None in Hfind. rewrite Hids in Hfind. done.
  - apply List.Forall_forall. intros e He.
    apply in_map_iff in He as (x & <- & _). reflexivity.
Qed.

(** *** [getChangelog] *)

(** With no live entry under the URL, a release lookup that fails at the
    remote end fails: nothing is cached and the error propagates. *)
Lemma getReleaseById_remote_failure addonId releaseId w url e :
  newURL env
    (API_URL env +:+ "/addons/" +:+ addonId +:+ "/releases/" +:+ releaseId)
    = Ok url ->
  (forall entry,
      w_cache w !! url = Some entry -> entry_expiresAt entry <= w_clock w) ->
  httpGetRelease env (w_requests w) url = Throw e ->
  getReleaseById env addonId releaseId w
    = (Throw e, add_request (GetJson url) w).
Proof.
  intros Hurl Hcold Hget.
  unfold getReleaseById, bind, liftResult. rewrite Hurl.
  unfold transaction, getJsonRelease. rewrite Hget.
  destruct (w_cache w !! url) as [entry|] eqn:Hentry; [|done].
  specialize (Hcold entry eq_refl).
  destruct (Z.ltb_spec (w_clock w) (entry_expiresAt entry)); [lia | done].
Qed.

(** C8. [getChangelog] always returns a string.  When the release lookup
    fails it returns the empty string after logging the failure; so it
    does when the remote end fails and no live cache entry answers in
    its place; and it returns the empty string when the response, its
    release or the body of the release is missing. *)
Theorem getChangelog_never_throws inst externalId externalReleaseId w :
  let w0 := add_console (ConsoleDebug "getChangelog") w in
  (exists text w',
      getChangelog env inst externalId externalReleaseId w = (Ok text, w'))
  /\ (forall e w1,
         getReleaseById env externalId externalReleaseId w0 = (Throw e, w1) ->
         getChangelog env inst externalId externalReleaseId w
         = (Ok "", add_console (ConsoleError "Failed to get changelog" e) w1))
  /\ (forall url e,
         newURL env
           (API_URL env +:+ "/addons/" +:+ externalId +:+ "/releases/"
              +:+ externalReleaseId) = Ok url ->
         (forall entry,
             w_cache w !! url = Some entry ->
             entry_expiresAt entry <= w_clock w) ->
         httpGetRelease env (w_requests w) url = Throw e ->
         (getChangelog env inst externalId externalReleaseId w).1 = Ok "")
  /\ (forall response w1,
         getReleaseById env externalId externalReleaseId w0
           = (Ok response, w1) ->
         (response ≫= release) ≫= rel_body = None ->
         getChangelog env inst externalId externalReleaseId w = (Ok "", w1)).
Proof.
  intros w0.
  assert (Hrun :
    getChangelog env inst externalId externalReleaseId w
    = match getReleaseById env externalId externalReleaseId w0 with
      | (Ok response, w1) =>
          (Ok (Js.nullish ((response ≫= release) ≫= rel_body) ""), w1)
      | (Throw e, w1) =>
          (Ok "", add_console (ConsoleError "Failed to get changelog" e) w1)
      end).
  { unfold getChangelog, bind, try_catch, console, ret. simpl. fold w0.
    by destruct (getReleaseById env externalId externalReleaseId w0)
      as [[response|e] w1]. }
  repeat split.
  - rewrite Hrun.
    destruct (getReleaseById env externalId externalReleaseId w0)
      as [[response|e] w1]; eauto.
  - intros e w1 Hfail. by rewrite Hrun, Hfail.
  - intros url e Hurl Hcold Hget. rewrite Hrun.
    rewrite (getReleaseById_remote_failure _ _ w0 url e); auto.
  - intros response w1 Hok Hnone. by rewrite Hrun, Hok, Hnone.
Qed.

(** *** The fallback of the first loop *)

(** When no fingerprint match of a folder declares the target variant,
    the first loop of [scan] takes the first match in the order of the
    response. *)
Lemma clientMatchOf_fallback gameType resp sr first rest :
  fingerprintMatchesOf resp sr = first :: rest ->
  (forall m,
      In m (first :: rest) ->
      hasGameType (fm_matched_release m) gameType = false) ->
  clientMatchOf gameType resp sr = Some first.
Proof.
  intros Hfms Hnone. unfold clientMatchOf. rewrite Hfms.
  destruct (List.find _ (first :: rest)) as [m|] eqn:Hfind; [|done].
  apply find_some in Hfind as [Hin Hm]. rewrite (Hnone m Hin) in Hm. done.
Qed.

(** The second loop then puts an addon on the folder, provided the
    release of that match declares some game version. *)
Lemma scanFolder_builds inst ch srs af sr m w :
  scanResultOf srs af = Some sr ->
  sr_exactMatch sr = Some m ->
  rel_game_versions (fm_matched_release m) <> [] ->
  exists a w',
    scanFolder env inst ch srs af w = (Ok tt, set_matchingAddon a af, w').
Proof.
  intros Hsr Hm Hgvs. unfold scanFolder. unfold scanResultOf in Hsr.
  rewrite Hsr, Hm.
  destruct (getAddon_returns inst ch sr m w Hm Hgvs) as (a & w' & ->).
  by exists a, w'.
Qed.

End Properties.

(** ** The model at work *)

Import Samples.

(** *** [getAll] *)

(** The example of the spec, section 8, "Partial batch": the ids 1, 2 and 3
    are requested, the hub returns the addons 1 and 3; the call returns two
    search results and one error, for the id 2. *)
Example getAll_one_of_three_removed :
  exists result w',
    getAll hubBatch retailInstallation ["1"; "2"; "3"] world0 = (Ok result, w')
    /\ List.map res_externalId (searchResults result) = ["1"; "3"]
    /\ errors result = [ {| err_addonId := "2"; err_innerError := None |} ].
Proof. eexists _, _. vm_compute. repeat split. Qed.

(** An id that does not print the way the hub prints it is reported as
    removed although the hub returned the addon: the request carries the
    number 1 for [01], the answer is compared with the string. *)
Example getAll_compares_strings :
  exists result w',
    getAll hubBatch retailInstallation ["01"] world0 = (Ok result, w')
    /\ w_requests w'
       = [PostAddonIds "https://hub.example/addons/batch/retail" [Js.Int 1]]
    /\ List.map res_externalId (searchResults result) = ["1"; "3"]
    /\ List.map err_addonId (errors result) = ["01"].
Proof. eexists _, _. vm_compute. repeat split. Qed.

(** C5 at the example of the spec: the id 2 is absent from the answer and
    the result holds exactly one error for it. *)
Lemma getAll_partial_batch_witness :
  absentFrom batchAddons "2"
  /\ exists result w',
       getAll hubBatch retailInstallation ["1"; "2"; "3"] world0
         = (Ok result, w')
       /\ count_occ string_dec (List.map err_addonId (errors result)) "2"
          = 1%nat.
Proof.
  assert (Habsent : absentFrom batchAddons "2").
  { unfold absentFrom. simpl. intros [H|[H|[]]]; discriminate H. }
  split; [exact Habsent|].
  destruct (getAll_partial_batch hubBatch retailInstallation ["1"; "2"; "3"]
              world0 "https://hub.example/addons/batch/retail"
              (Some {| batch_addons := batchAddons |}) eq_refl eq_refl)
    as (result & w' & Hrun & _ & Hremoved & _).
  exists result, w'. split; [exact Hrun|].
  rewrite (Hremoved "2" Habsent). reflexivity.
Defined.

(** *** [getChangelog] *)

(** The changelog of a release the hub fails to deliver (the lookup times
    out) is the empty string, and the failure is on the console. *)
Example getChangelog_after_timeout :
  getChangelog hubPrerelease retailInstallation "1" "11" world0
  = (Ok "",
     {| w_clock := 1000; w_cache := ∅;
        w_requests := [GetJson "https://hub.example/addons/1/releases/11"];
        w_console :=
          [ConsoleDebug "getChangelog";
           ConsoleError "Failed to get changelog" Timeout];
        w_uuids := 0 |}).
Proof. vm_compute. reflexivity. Qed.

(** The changelog of a release without body is the empty string; the
    response is cached for thirty minutes from the time of the call. *)
Example getChangelog_without_body :
  exists w',
    getChangelog hubNoBody retailInstallation "1" "11" world0 = (Ok "", w')
    /\ entry_expiresAt
         <$> (w_cache w' !! "https://hub.example/addons/1/releases/11")
       = Some 2800.
Proof. eexists. vm_compute. split; reflexivity. Qed.

(** *** A pass over a prerelease *)

(** A retail pass with preference [stable] over [fooFolder], against a hub
    that knows the prerelease of [bar], puts [fooAddon] on the folder. *)
Lemma fooAddon_produced :
  producedByScan hubPrerelease retailInstallation stable [fooFolder] world0
    fooFolder fooAddon.
Proof.
  exists 0%nat, (set_matchingAddon fooAddon fooFolder).
  split; [reflexivity|]. split; [vm_compute; reflexivity|].
  split; [reflexivity | discriminate].
Defined.

(** The first loop of that pass matches the folder with [retailMatch]. *)
Lemma fooAddon_scanMatches :
  scanMatches hubPrerelease retailInstallation [fooFolder] world0
  = (Ok [set_exactMatch (Some retailMatch) fooScan],
     (scanMatches hubPrerelease retailInstallation [fooFolder] world0).2).
Proof. vm_compute. reflexivity. Qed.

(** C1, counterexample. The release matched with [fooFolder] is a
    prerelease, so the claim asks for the channel Beta; the addon the pass
    builds carries Stable, the preference the pass was called with. *)
Lemma scan_channel_ignores_prerelease :
  producedByScan hubPrerelease retailInstallation stable [fooFolder] world0
    fooFolder fooAddon
  /\ rel_prerelease (fm_matched_release retailMatch) = true
  /\ getAddonReleaseChannel (fm_matched_release retailMatch)
     = AddonChannelType.Beta
  /\ addon_channelType fooAddon = AddonChannelType.Stable
  /\ ~ channelFromPrerelease hubPrerelease retailInstallation stable
         [fooFolder] world0.
Proof.
  split; [exact fooAddon_produced|]. do 3 (split; [reflexivity|]).
  intros Hclaim.
  specialize (Hclaim fooFolder fooAddon _ _
                (set_exactMatch (Some retailMatch) fooScan) retailMatch
                fooAddon_produced fooAddon_scanMatches eq_refl eq_refl).
  discriminate Hclaim.
Qed.

(** C1, as amended, on [fooAddon]. *)
Lemma scan_channel_is_preference_witness :
  producedByScan hubPrerelease retailInstallation stable [fooFolder] world0
    fooFolder fooAddon
  /\ addon_channelType fooAddon = stable
  /\ addon_externalChannel fooAddon = getEnumName hubPrerelease stable.
Proof.
  split; [exact fooAddon_produced|].
  destruct (scan_channel_is_preference hubPrerelease retailInstallation
              stable [fooFolder] world0 fooFolder fooAddon fooAddon_produced)
    as (Hch & Hext & _).
  split; [exact Hch | exact Hext].
Defined.

(** C6, counterexample. The only scanned folder that belongs to the match
    is named [Foo]; the addon lists [Bar] and [Baz], the names the release
    declares, of which [Baz] was not scanned at all. *)
Lemma scan_installed_folders_not_local :
  producedByScan hubPrerelease retailInstallation stable [fooFolder] world0
    fooFolder fooAddon
  /\ addon_installedFolderList fooAddon = ["Bar"; "Baz"]
  /\ addon_installedFolders fooAddon = "Bar, Baz"
  /\ localFolderNames [set_exactMatch (Some retailMatch) fooScan] retailMatch
     = ["Foo"]
  /\ ~ installedFoldersAreLocal hubPrerelease retailInstallation stable
         [fooFolder] world0.
Proof.
  split; [exact fooAddon_produced|]. do 3 (split; [reflexivity|]).
  intros Hclaim.
  destruct (Hclaim fooFolder fooAddon _ _
              (set_exactMatch (Some retailMatch) fooScan) retailMatch
              fooAddon_produced fooAddon_scanMatches eq_refl eq_refl)
    as [Hmembers _].
  destruct (proj1 (Hmembers "Bar")) as [Hfoo|[]]; [by left|].
  discriminate Hfoo.
Qed.

(** C6, as amended, on [fooAddon]. *)
Lemma scan_installed_folders_from_release_witness :
  producedByScan hubPrerelease retailInstallation stable [fooFolder] world0
    fooFolder fooAddon
  /\ exists srs w1 sr exactMatch,
       scanMatches hubPrerelease retailInstallation [fooFolder] world0
         = (Ok srs, w1)
       /\ scanResultOf srs fooFolder = Some sr
       /\ sr_exactMatch sr = Some exactMatch
       /\ addon_installedFolderList fooAddon
          = List.map raf_folder_name
              (rel_addonFolders (fm_matched_release exactMatch))
       /\ addon_installedFolders fooAddon
          = Js.join ", "
              (List.map raf_folder_name
                 (rel_addonFolders (fm_matched_release exactMatch))).
Proof.
  split; [exact fooAddon_produced|].
  exact (scan_installed_folders_from_release hubPrerelease retailInstallation
           stable [fooFolder] world0 fooFolder fooAddon fooAddon_produced).
Defined.

(** C10 on [fooAddon]. *)
Lemma scan_installed_is_latest_witness :
  producedByScan hubPrerelease retailInstallation stable [fooFolder] world0
    fooFolder fooAddon
  /\ addon_installedVersion fooAddon = addon_latestVersion fooAddon
  /\ addon_installedExternalReleaseId fooAddon
     = addon_externalLatestReleaseId fooAddon.
Proof.
  split; [exact fooAddon_produced|].
  exact (scan_installed_is_latest hubPrerelease retailInstallation stable
           [fooFolder] world0 fooFolder fooAddon fooAddon_produced).
Defined.

(** C4, counterexample. Two passes in a row over the same folder, with the
    clock standing still: the second pass posts the same fingerprint
    lookup again, and the cache is as empty after the passes as before. *)
Lemma scan_second_pass_posts_again :
  fingerprintPosts (afterTwoPasses hubPrerelease [fooFolder])
  = [PostFingerprints "https://hub.example/addons/fingerprint" ["f1"];
     PostFingerprints "https://hub.example/addons/fingerprint" ["f1"]]
  /\ w_cache (afterTwoPasses hubPrerelease [fooFolder]) = ∅
  /\ ~ lookupServedFromCache hubPrerelease retailInstallation stable
         [fooFolder] world0.
Proof.
  split; [vm_compute; reflexivity|]. split; [vm_compute; reflexivity|].
  unfold lookupServedFromCache. vm_compute. intros Hsame. discriminate Hsame.
Qed.

(** C4, as amended, on one pass over [fooFolder]. *)
Lemma scan_posts_fingerprints_uncached_witness :
  electronInvoke hubPrerelease (List.map folder_path [fooFolder]) = Ok [fooScan]
  /\ exists r folders' w',
       scan hubPrerelease retailInstallation stable [fooFolder] world0
         = (r, folders', w')
       /\ w_cache w' = w_cache world0
       /\ w_requests w'
          = (w_requests world0
               ++ [PostFingerprints (fingerprintUrl hubPrerelease)
                     (List.map sr_fingerprint [fooScan])])%list.
Proof.
  split; [reflexivity|].
  apply (scan_posts_fingerprints_uncached hubPrerelease retailInstallation
           stable [fooFolder] world0 [fooScan]).
  reflexivity.
Defined.

(** *** A pass over two releases of the same addon *)

(** C2 on a response that lists the classic release before the retail
    one: both match the fingerprint of [fooFolder], the retail one is
    taken. *)
Lemma scan_prefers_target_variant_witness :
  List.map fm_id
    (fingerprintMatchesOf {| exactMatches := [classicMatch; retailMatch] |}
       fooScan) = [2; 1]
  /\ sr_exactMatch fooScan = None
  /\ exists srs' w' sr',
       scanMatches hubTwoReleases retailInstallation [fooFolder] world0
         = (Ok srs', w')
       /\ srs' !! 0%nat = Some sr'
       /\ sr_exactMatch sr' = Some retailMatch
       /\ sr_path sr' = sr_path fooScan
       /\ sr_fingerprint sr' = sr_fingerprint fooScan
       /\ sr_folderName sr' = sr_folderName fooScan.
Proof.
  split; [reflexivity|]. split; [reflexivity|].
  apply (scan_prefers_target_variant hubTwoReleases retailInstallation
           [fooFolder] world0 [fooScan]
           {| exactMatches := [classicMatch; retailMatch] |} 0%nat fooScan
           retailMatch).
  - reflexivity.
  - reflexivity.
  - reflexivity.
  - vm_compute. lia.
  - reflexivity.
  - vm_compute. right. left. reflexivity.
  - reflexivity.
Defined.

(** *** A pass over a release without game versions *)

(** C3, the failing input. [fooFolder] has one fingerprint match,
    [bareMatch], whose release declares no game version.  The first loop
    falls back to it; [getAddon] then throws while it builds the
    diagnostic, the second loop logs the exception, and [fooFolder] ends
    the pass without addon. *)
Lemma scan_bare_release_builds_nothing :
  fingerprintMatchesOf {| exactMatches := [bareMatch; quxMatch] |} fooScan
  = [bareMatch]
  /\ hasGameType (fm_matched_release bareMatch) WowGameType.Retail = false
  /\ (scanMatches hubBare retailInstallation [fooFolder; quxFolder] world0).1
     = Ok bareScanResults
  /\ exists folders' w',
       scan hubBare retailInstallation stable [fooFolder; quxFolder] world0
         = (Ok tt, folders', w')
       /\ folders' !! 0%nat = Some fooFolder
       /\ folder_matchingAddon fooFolder = None
       /\ In (ConsoleErrorExn (undefinedRead "interface")) (w_console w').
Proof.
  do 3 (split; [vm_compute; reflexivity|]).
  eexists _, _. split; [vm_compute; reflexivity|].
  split; [reflexivity|]. split; [reflexivity|].
  simpl. do 5 right. left. reflexivity.
Qed.



(** After the failure on [fooFolder] the pass still resolves
    [quxFolder]. *)
Example scan_goes_on_after_failure :
  exists a w',
    scan hubBare retailInstallation stable [fooFolder; quxFolder] world0
    = (Ok tt, [fooFolder; set_matchingAddon a quxFolder], w')
    /\ addon_externalId a = "4".
Proof. eexists _, _. vm_compute. split; reflexivity. Qed.

(** ** Further properties of the provider *)

(** *** Decimal ids *)

Lemma parseDigits_pretty_N_go (x : N) (s : string) :
  Js.parseDigits 0 (pretty_N_go x s) = Js.parseDigits (Z.of_N x) s.
Proof.
  revert s. induction (N.lt_wf_0 x) as [x _ IH]. intros s.
  destruct (decide (x = 0%N)) as [->|Hx]; [reflexivity|].
  rewrite pretty_N_go_step by lia.
  rewrite IH by (apply N.div_lt; lia).
  assert (Hd : Js.digitValue (pretty_N_char (x `mod` 10)%N)
               = Some (Z.of_N (x `mod` 10)%N)).
  { pose proof (N.mod_lt x 10 ltac:(lia)) as Hlt.
    generalize dependent (x `mod` 10)%N. intros d Hlt.
    assert (Hc : (d = 0 \/ d = 1 \/ d = 2 \/ d = 3 \/ d = 4 \/ d = 5
                  \/ d = 6 \/ d = 7 \/ d = 8 \/ d = 9)%N) by lia.
    destruct Hc as [->|[->|[->|[->|[->|[->|[->|[->|[->| ->]]]]]]]]];
      reflexivity. }
  simpl. rewrite Hd. f_equal.
  rewrite N2Z.inj_div, N2Z.inj_mod. simpl.
  pose proof (Z.div_mod (Z.of_N x) 10 ltac:(lia)). lia.
Qed.

(** The decimal print of a positive number starts with a digit. *)
Lemma pretty_N_go_head (x : N) (s : string) :
  (0 < x)%N ->
  exists y r, (y < 10)%N /\ pretty_N_go x s = String (pretty_N_char y) r.
Proof.
  revert s. induction (N.lt_wf_0 x) as [x _ IH]. intros s Hx.
  rewrite pretty_N_go_step by done.
  destruct (decide (x `div` 10 = 0)%N) as [->|Hq].
  - exists (x `mod` 10)%N, s. split; [apply N.mod_lt; lia | reflexivity].
  - apply IH; [apply N.div_lt; lia | by apply N.neq_0_lt_0].
Qed.

Lemma parseInt_digit_head (y : N) (r : string) :
  (y < 10)%N ->
  Js.parseInt (String (pretty_N_char y) r)
  = Js.Int (Js.parseDigits 0 (String (pretty_N_char y) r)).
Proof.
  intros Hy.
  assert (Hc : (y = 0 \/ y = 1 \/ y = 2 \/ y = 3 \/ y = 4 \/ y = 5 \/ y = 6
                \/ y = 7 \/ y = 8 \/ y = 9)%N) by lia.
  destruct Hc as [->|[->|[->|[->|[->|[->|[->|[->|[->| ->]]]]]]]]];
    unfold Js.parseInt; simpl;
    match goal with |- Js.Int (1 * ?v) = _ => by destruct v end.
Qed.

Lemma parseInt_minus_digit_head (y : N) (r : string) :
  (y < 10)%N ->
  Js.parseInt ("-" +:+ String (pretty_N_char y) r)
  = Js.Int (- Js.parseDigits 0 (String (pretty_N_char y) r)).
Proof.
  intros Hy.
  assert (Hc : (y = 0 \/ y = 1 \/ y = 2 \/ y = 3 \/ y = 4 \/ y = 5 \/ y = 6
                \/ y = 7 \/ y = 8 \/ y = 9)%N) by lia.
  destruct Hc as [->|[->|[->|[->|[->|[->|[->|[->|[->| ->]]]]]]]]];
    unfold Js.parseInt; simpl;
    match goal with |- Js.Int (-1 * ?v) = _ => by destruct v end.
Qed.

Lemma pretty_N_go_app (x : N) (s t : string) :
  pretty_N_go x s +:+ t = pretty_N_go x (s +:+ t).
Proof.
  revert s. induction (N.lt_wf_0 x) as [x _ IH]. intros s.
  destruct (decide (x = 0%N)) as [->|Hx]; [reflexivity|].
  rewrite (pretty_N_go_step x s), (pretty_N_go_step x (s +:+ t)) by lia.
  rewrite IH by (apply N.div_lt; lia). reflexivity.
Qed.

Lemma parseDigits_noLeadingDigit (acc : Z) (s : string) :
  noLeadingDigit s -> Js.parseDigits acc s = acc.
Proof. destruct s as [|c s]; simpl; [done|]. by intros ->. Qed.

Lemma parseInt_pretty_N_go (x : N) (rest : string) :
  (0 < x)%N ->
  noLeadingDigit rest ->
  Js.parseInt (pretty_N_go x rest) = Js.Int (Z.of_N x)
  /\ Js.parseInt ("-" +:+ pretty_N_go x rest) = Js.Int (- Z.of_N x).
Proof.
  intros Hx Hrest.
  pose proof (parseDigits_pretty_N_go x rest) as Hval.
  rewrite (parseDigits_noLeadingDigit _ _ Hrest) in Hval.
  destruct (pretty_N_go_head x rest Hx) as (y & r & Hy & Heq).
  rewrite Heq in *.
  rewrite parseInt_digit_head, parseInt_minus_digit_head, Hval by done.
  done.
Qed.

(** [parseInt] reads back the number a decimal id was printed from, also
    when the print is followed by text that does not start with a digit. *)
Lemma parseInt_toString (z : Z) (rest : string) :
  noLeadingDigit rest ->
  Js.parseInt (Js.toString z +:+ rest) = Js.Int z.
Proof.
  intros Hrest. unfold Js.toString, pretty, pretty_Z.
  destruct z as [|p|p].
  - unfold Js.parseInt. simpl.
    by rewrite (parseDigits_noLeadingDigit _ _ Hrest).
  - unfold pretty, pretty_positive, pretty, pretty_N.
    destruct (decide (N.pos p = 0%N)) as [|_]; [done|].
    rewrite pretty_N_go_app. simpl.
    by apply (parseInt_pretty_N_go (N.pos p) rest).
  - unfold pretty, pretty_positive, pretty, pretty_N.
    destruct (decide (N.pos p = 0%N)) as [|_]; [done|].
    change (("-" +:+ pretty_N_go (N.pos p) "") +:+ rest)
      with ("-" +:+ (pretty_N_go (N.pos p) "" +:+ rest)).
    rewrite pretty_N_go_app. simpl.
    by apply (parseInt_pretty_N_go (N.pos p) rest).
Qed.

Lemma append_empty_r (s : string) : s +:+ "" = s.
Proof.
  induction s as [|c s IH]; [done|].
  change (String c (s +:+ "") = String c s). by rewrite IH.
Qed.

Lemma parseInt_toString_exact (z : Z) : Js.parseInt (Js.toString z) = Js.Int z.
Proof.
  pose proof (parseInt_toString z "" I) as Hz.
  by rewrite append_empty_r in Hz.
Qed.

(** The decimal print of a number is never the empty string. *)
Lemma toString_nonempty (z : Z) : Js.toString z <> "".
Proof.
  intros Hempty.
  pose proof (parseInt_toString z "" I) as Hparse.
  rewrite Hempty in Hparse. discriminate Hparse.
Qed.

(** A digit has a value from 0 to 9. *)
Lemma digitValue_range (c : ascii) (d : Z) :
  Js.digitValue c = Some d -> 0 <= d <= 9.
Proof.
  unfold Js.digitValue.
  destruct ((48 <=? nat_of_ascii c)%nat && (nat_of_ascii c <=? 57)%nat)
    eqn:Hc; [|discriminate].
  apply andb_true_iff in Hc as [Hlo Hhi].
  apply Nat.leb_le in Hlo. apply Nat.leb_le in Hhi.
  intros [= <-]. lia.
Qed.

(** Reading more digits never lowers the number read so far. *)
Lemma parseDigits_ge (s : string) (acc : Z) :
  0 <= acc -> acc <= Js.parseDigits acc s.
Proof.
  revert acc. induction s as [|c s IH]; intros acc Hacc; simpl; [lia|].
  destruct (Js.digitValue c) as [d|] eqn:Hd; [|lia].
  apply digitValue_range in Hd.
  assert (Hnext : 0 <= 10 * acc + d) by lia.
  specialize (IH _ Hnext). lia.
Qed.

(** A minus sign and the digits of a positive number, followed by any
    text at all: the digits of the text, if it starts with some, are read
    as further digits of the number. *)
Lemma parseInt_minus_pretty_N_go (x : N) (rest : string) :
  (0 < x)%N ->
  Js.parseInt ("-" +:+ pretty_N_go x rest)
  = Js.Int (- Js.parseDigits (Z.of_N x) rest).
Proof.
  intros Hx.
  pose proof (parseDigits_pretty_N_go x rest) as Hval.
  destruct (pretty_N_go_head x rest Hx) as (y & r & Hy & Heq).
  rewrite Heq in *.
  by rewrite parseInt_minus_digit_head, Hval.
Qed.

Lemma parseInt_negative (z : Z) (rest : string) :
  z < 0 ->
  exists z', Js.parseInt (Js.toString z +:+ rest) = Js.Int z' /\ z' <= z.
Proof.
  intros Hz. unfold Js.toString, pretty, pretty_Z.
  destruct z as [|p|p]; [lia | lia |].
  unfold pretty, pretty_positive, pretty, pretty_N.
  destruct (decide (N.pos p = 0%N)) as [|_]; [done|].
  change (("-" +:+ pretty_N_go (N.pos p) "") +:+ rest)
    with ("-" +:+ (pretty_N_go (N.pos p) "" +:+ rest)).
  rewrite pretty_N_go_app. change ("" +:+ rest) with rest.
  rewrite (parseInt_minus_pretty_N_go (N.pos p) rest) by done.
  eexists. split; [reflexivity|].
  pose proof (parseDigits_ge rest (Z.of_N (N.pos p)) ltac:(lia)). lia.
Qed.

(** Zeros in front of a decimal print do not change the number read. *)
Lemma parseDigits_toString (z : Z) (rest : string) :
  0 <= z ->
  noLeadingDigit rest ->
  Js.parseDigits 0 (Js.toString z +:+ rest) = z.
Proof.
  intros Hz Hrest. unfold Js.toString, pretty, pretty_Z.
  destruct z as [|p|p]; [| |lia].
  - change ("0" +:+ rest) with (String "0" rest). simpl.
    by rewrite (parseDigits_noLeadingDigit _ _ Hrest).
  - unfold pretty, pretty_positive, pretty, pretty_N.
    destruct (decide (N.pos p = 0%N)) as [|_]; [done|].
    rewrite pretty_N_go_app. change ("" +:+ rest) with rest.
    rewrite parseDigits_pretty_N_go.
    by rewrite (parseDigits_noLeadingDigit _ _ Hrest).
Qed.

Lemma parseInt_zero_head (t : string) :
  Js.parseInt (String "0" t) = Js.Int (Js.parseDigits 0 t).
Proof. unfold Js.parseInt. simpl. rewrite Z.mul_1_l. reflexivity. Qed.

Lemma parseInt_leading_zero (z : Z) (rest : string) :
  0 <= z ->
  noLeadingDigit rest ->
  Js.parseInt ("0" +:+ Js.toString z +:+ rest) = Js.Int z.
Proof.
  intros Hz Hrest.
  change ("0" +:+ Js.toString z +:+ rest)
    with (String "0" (Js.toString z +:+ rest)).
  by rewrite parseInt_zero_head, (parseDigits_toString z rest Hz Hrest).
Qed.

Section ExtraProperties.

Variable env : Env.

(** *** The first loop of [scan], further *)

Lemma find_path_map (f : AppWowUpScanResult -> AppWowUpScanResult)
    (srs : list AppWowUpScanResult) (p : string) :
  (forall sr, sr_path (f sr) = sr_path sr) ->
  List.find (fun sr => String.eqb (sr_path sr) p) (List.map f srs)
  = f <$> List.find (fun sr => String.eqb (sr_path sr) p) srs.
Proof.
  intros Hpath. induction srs as [|sr srs IH]; simpl; [done|].
  rewrite Hpath. by destruct (String.eqb (sr_path sr) p).
Qed.

Lemma clientMatchOf_sound gameType resp sr :
  match clientMatchOf gameType resp sr with
  | Some m =>
      In m (exactMatches resp)
      /\ hasMatchingFingerprint sr (fm_matched_release m) = true
  | None =>
      forall m,
        In m (exactMatches resp) ->
        hasMatchingFingerprint sr (fm_matched_release m) = false
  end.
Proof.
  unfold clientMatchOf.
  destruct (List.find _ (fingerprintMatchesOf resp sr)) as [m|] eqn:Hfind.
  - apply find_some in Hfind as [Hin _]. by apply filter_In in Hin.
  - destruct (fingerprintMatchesOf resp sr) as [|m fms] eqn:Hfms; simpl.
    + intros m Hin.
      destruct (hasMatchingFingerprint sr (fm_matched_release m)) eqn:Hm;
        [|done].
      assert (Hf : In m (fingerprintMatchesOf resp sr))
        by (apply filter_In; auto).
      rewrite Hfms in Hf. done.
    + assert (Hf : In m (fingerprintMatchesOf resp sr))
        by (rewrite Hfms; by left).
      by apply filter_In in Hf.
Qed.

(** X1. The match the first loop of [scan] puts on a scan result is
    always an element of the response whose release lists the fingerprint
    of the folder, and a scan result is left without match only when no
    element of the response lists its fingerprint; path, fingerprint and
    folder name of the scan result stay as the scanner gave them. *)
Theorem scan_match_lists_fingerprint inst folders w srs resp i sr :
  electronInvoke env (List.map folder_path folders) = Ok srs ->
  httpPostFingerprints env (w_requests w) (fingerprintUrl env)
    (List.map sr_fingerprint srs) = Ok resp ->
  srs !! i = Some sr ->
  exists srs' w' sr',
    scanMatches env inst folders w = (Ok srs', w')
    /\ srs' !! i = Some sr'
    /\ sr_path sr' = sr_path sr
    /\ sr_fingerprint sr' = sr_fingerprint sr
    /\ sr_folderName sr' = sr_folderName sr
    /\ match sr_exactMatch sr' with
       | Some m =>
           In m (exactMatches resp)
           /\ hasMatchingFingerprint sr (fm_matched_release m) = true
       | None =>
           forall m,
             In m (exactMatches resp) ->
             hasMatchingFingerprint sr (fm_matched_release m) = false
       end.
Proof.
  intros Hipc Hpost Hi.
  destruct (scanMatches_run env inst folders w srs resp Hipc Hpost)
    as (w' & Hrun & _).
  eexists _, w', _. split; [exact Hrun|].
  rewrite lookup_map, Hi. simpl. split; [reflexivity|].
  repeat (split; [reflexivity|]).
  apply clientMatchOf_sound.
Qed.

(** *** The second loop of [scan], further *)

Lemma folderStep_path inst ch srs af af' :
  folderStep env inst ch srs af af' -> folder_path af' = folder_path af.
Proof.
  intros [->|(sr & a & wa & wb & _ & _ & ->)]; reflexivity.
Qed.

(** X2. Whatever happens during a pass, [scan] hands back the folders it
    was given, one for one and in order, each with its path: it only ever
    writes the [matchingAddon] of a folder. *)
Theorem scan_keeps_paths inst ch folders w :
  List.map folder_path (scan env inst ch folders w).1.2
  = List.map folder_path folders.
Proof.
  unfold scan.
  destruct (scanMatches env inst folders w) as [[srs|e] w1]; [|done].
  destruct (scanFolders env inst ch srs folders w1)
    as [[r folders'] w2] eqn:Hloop.
  apply scanFolders_steps in Hloop as [_ Hall]. simpl.
  induction Hall as [|af af' l l' Hstep _ IH]; simpl; [done|].
  by rewrite (folderStep_path _ _ _ _ _ Hstep), IH.
Qed.

(** X3. A folder whose scan result has no fingerprint match in the
    response comes out of the pass exactly as it went in, with whatever
    addon it carried before. *)
Theorem scan_skips_unmatched_folder inst ch folders w srs resp i af sr :
  electronInvoke env (List.map folder_path folders) = Ok srs ->
  httpPostFingerprints env (w_requests w) (fingerprintUrl env)
    (List.map sr_fingerprint srs) = Ok resp ->
  folders !! i = Some af ->
  scanResultOf srs af = Some sr ->
  fingerprintMatchesOf resp sr = [] ->
  (scan env inst ch folders w).1.2 !! i = Some af.
Proof.
  intros Hipc Hpost Hi Hsr Hnone.
  destruct (scanMatches_run env inst folders w srs resp Hipc Hpost)
    as (w1 & Hrun & _).
  unfold scan. rewrite Hrun.
  set (resolve := fun sr0 =>
         set_exactMatch
           (clientMatchOf (getWowGameType (inst_clientType inst)) resp sr0)
           sr0).
  destruct (scanFolders env inst ch (List.map resolve srs) folders w1)
    as [[r folders'] w2] eqn:Hloop.
  apply scanFolders_steps in Hloop as [_ Hall]. simpl.
  destruct (Forall2_lookup_l _ _ _ _ _ Hall Hi) as (af' & Hi' & Hstep).
  rewrite Hi'. f_equal.
  destruct Hstep as [->|(sr' & a & wa & wb & Hsr' & Hget & _)]; [done|].
  unfold scanResultOf in Hsr, Hsr'.
  rewrite (find_path_map resolve) in Hsr' by done.
  rewrite Hsr in Hsr'. injection Hsr' as <-.
  apply getAddon_built in Hget as (m & Hm & _).
  unfold resolve, clientMatchOf in Hm. simpl in Hm.
  rewrite Hnone in Hm. discriminate Hm.
Qed.

(** X4. When the folder scanner fails, [scan] fails with the scanner's
    error before anything else happens: no request is sent, the cache is
    not touched, no uuid is drawn, and every folder is as it was. *)
Theorem scan_scanner_failure inst ch folders w e :
  electronInvoke env (List.map folder_path folders) = Throw e ->
  exists w',
    scan env inst ch folders w = (Throw e, folders, w')
    /\ w_requests w' = w_requests w
    /\ w_cache w' = w_cache w
    /\ w_uuids w' = w_uuids w.
Proof.
  intros Hipc.
  unfold scan, scanMatches, bind, console, getScanResults, liftResult.
  simpl. rewrite Hipc. eexists. split; [reflexivity|]. done.
Qed.

(** X5. When the fingerprint lookup fails, [scan] fails with that error
    after the one request: no folder is changed, no addon is built (no
    uuid is drawn), whatever addons the folders could have been matched
    with. *)
Theorem scan_lookup_failure inst ch folders w srs e :
  electronInvoke env (List.map folder_path folders) = Ok srs ->
  httpPostFingerprints env (w_requests w) (fingerprintUrl env)
    (List.map sr_fingerprint srs) = Throw e ->
  exists w',
    scan env inst ch folders w = (Throw e, folders, w')
    /\ w_requests w'
       = (w_requests w
            ++ [PostFingerprints (fingerprintUrl env)
                  (List.map sr_fingerprint srs)])%list
    /\ w_uuids w' = w_uuids w.
Proof.
  intros Hipc Hpost.
  unfold scan, scanMatches, bind, console, getScanResults, liftResult.
  simpl. rewrite Hipc. simpl.
  unfold getAddonsByFingerprints, postJsonFingerprints. simpl.
  unfold fingerprintUrl in Hpost. rewrite Hpost.
  eexists. split; [reflexivity|]. done.
Qed.

(** X6. The lookup of a folder's scan result is outside the [try] of the
    second loop: when the scanner returned no result with the path of a
    folder, the pass ends there with a [TypeError]; the folders before it
    keep what the pass gave them, that folder and all the folders after it
    are left as they were. *)
Theorem scan_aborts_without_scan_result
    inst ch pre af post w srs w0 pre' w1 :
  scanMatches env inst (pre ++ af :: post)%list w = (Ok srs, w0) ->
  scanFolders env inst ch srs pre w0 = (Ok tt, pre', w1) ->
  scanResultOf srs af = None ->
  scan env inst ch (pre ++ af :: post)%list w
  = (Throw (undefinedRead "exactMatch"), (pre' ++ af :: post)%list, w1).
Proof.
  intros Hmatches Hpre Hnone.
  unfold scan. rewrite Hmatches.
  rewrite (scanFolders_app env _ _ _ _ _ _ _ _ Hpre). simpl.
  unfold scanFolder. unfold scanResultOf in Hnone. by rewrite Hnone.
Qed.

(** *** The diagnostics of the first loop *)

Lemma resolveExactMatch_console gameType resp sr w :
  exists w',
    resolveExactMatch gameType resp sr w
      = (Ok (set_exactMatch (clientMatchOf gameType resp sr) sr), w')
    /\ w_console w'
       = (w_console w
            ++ (if needsFallback gameType resp sr
                then [fallbackWarning sr] else []))%list.
Proof.
  unfold resolveExactMatch, clientMatchOf, needsFallback, bind, ret.
  destruct (fingerprintMatchesOf resp sr) as [|m fms] eqn:Hfms.
  - simpl. exists w. by rewrite app_nil_r.
  - set (declares := fun exactMatch : FingerprintMatch =>
           hasGameType (fm_matched_release exactMatch) gameType).
    destruct (List.find declares (m :: fms)) as [m'|] eqn:Hfind.
    + apply find_some in Hfind as [Hin Hm'].
      assert (Hall : forallb (fun x => negb (declares x)) (m :: fms) = false).
      { apply not_true_is_false. intros Hall.
        rewrite forallb_forall in Hall. specialize (Hall m' Hin).
        rewrite Hm' in Hall. discriminate Hall. }
      unfold declares in Hall. rewrite Hall.
      exists w. by rewrite app_nil_r.
    + assert (Hall : forallb (fun x => negb (declares x)) (m :: fms) = true).
      { apply forallb_forall. intros x Hx.
        apply (find_none _ _ Hfind) in Hx. by rewrite Hx. }
      unfold declares in Hall. rewrite Hall.
      eexists. split; reflexivity.
Qed.

Lemma mapM_resolveExactMatch_console gameType resp srs w :
  exists w',
    mapM (resolveExactMatch gameType resp) srs w
      = (Ok (List.map
               (fun sr => set_exactMatch (clientMatchOf gameType resp sr) sr)
               srs), w')
    /\ w_console w'
       = (w_console w
            ++ List.map fallbackWarning
                 (List.filter (needsFallback gameType resp) srs))%list.
Proof.
  revert w. induction srs as [|sr srs IH]; intros w; simpl.
  - exists w. by rewrite app_nil_r.
  - destruct (resolveExactMatch_console gameType resp sr w)
      as (w1 & Hsr & Hc1).
    destruct (IH w1) as (w2 & Hsrs & Hc2).
    exists w2. unfold bind. rewrite Hsr. simpl. rewrite Hsrs. simpl.
    split; [done|]. rewrite Hc2, Hc1.
    destruct (needsFallback gameType resp sr); simpl;
      by rewrite <- app_assoc.
Qed.

(** X7. The console after the first phase of a pass: the timer lines, the
    list of all local fingerprints, then one fallback warning, naming the
    folder, for each scan result that has fingerprint matches none of
    which declares the target variant, in the order of the scan results,
    and nothing for the other scan results.  Each such scan result is
    matched with its first fingerprint match. *)
Theorem scan_fallback_warnings inst folders w srs resp :
  let gameType := getWowGameType (inst_clientType inst) in
  electronInvoke env (List.map folder_path folders) = Ok srs ->
  httpPostFingerprints env (w_requests w) (fingerprintUrl env)
    (List.map sr_fingerprint srs) = Ok resp ->
  exists srs' w',
    scanMatches env inst folders w = (Ok srs', w')
    /\ w_console w'
       = (w_console w
            ++ [ConsoleTime "WowUpScan"; ConsoleTimeEnd "WowUpScan";
                ConsoleLog "[WowUpFingerprints]"
                  (List.map sr_fingerprint srs)]
            ++ List.map fallbackWarning
                 (List.filter (needsFallback gameType resp) srs))%list
    /\ (forall i sr,
           srs !! i = Some sr ->
           needsFallback gameType resp sr = true ->
           exists sr',
             srs' !! i = Some sr'
             /\ sr_exactMatch sr' = head (fingerprintMatchesOf resp sr)
             /\ is_Some (sr_exactMatch sr')).
Proof.
  intros gameType Hipc Hpost.
  unfold scanMatches, bind, console, getScanResults, liftResult. simpl.
  rewrite Hipc. simpl.
  unfold getAddonsByFingerprints, postJsonFingerprints. simpl.
  unfold fingerprintUrl in Hpost. rewrite Hpost.
  fold gameType.
  edestruct (mapM_resolveExactMatch_console gameType resp srs)
    as (w' & Hrun & Hconsole).
  rewrite Hrun. eexists _, w'. split; [reflexivity|].
  split.
  - rewrite Hconsole. simpl. by rewrite <- !app_assoc.
  - intros i sr Hi Hfb. eexists. rewrite lookup_map, Hi. simpl.
    split; [reflexivity|]. simpl.
    unfold needsFallback in Hfb. unfold clientMatchOf.
    destruct (fingerprintMatchesOf resp sr) as [|m fms]; [done|].
    destruct (List.find _ (m :: fms)) as [m'|] eqn:Hfind.
    + apply find_some in Hfind as [Hin Hm'].
      rewrite forallb_forall in Hfb. specialize (Hfb m' Hin).
      rewrite Hm' in Hfb. discriminate Hfb.
    + simpl. split; [done | by eexists].
Qed.

(** *** [getAddon], further *)

(** X8. For a scan result that has a match, [getAddon] returns an addon
    exactly when the matched release declares some game version; when it
    declares none, [getAddon] throws the [TypeError] of the diagnostic it
    was about to write, and draws no uuid. *)
Theorem getAddon_returns_iff inst ch sr m w :
  sr_exactMatch sr = Some m ->
  ((exists a w', getAddon env inst ch sr w = (Ok a, w'))
   <-> rel_game_versions (fm_matched_release m) <> [])
  /\ (rel_game_versions (fm_matched_release m) = [] ->
      getAddon env inst ch sr w = (Throw (undefinedRead "interface"), w)).
Proof.
  intros Hm. split; [split|].
  - intros (a & w' & Hok) Hnil.
    rewrite (getAddon_throws env inst ch sr m w Hm Hnil) in Hok.
    discriminate Hok.
  - by apply getAddon_returns.
  - by apply getAddon_throws.
Qed.

Lemma getAddon_fields inst ch sr w a w' :
  getAddon env inst ch sr w = (Ok a, w') ->
  exists m gv,
    sr_exactMatch sr = Some m
    /\ resolvedVersion (fm_matched_release m)
         (getWowGameType (inst_clientType inst)) = Some gv
    /\ addon_name a = Js.nullish (gv_title gv) (fm_repository_name m)
    /\ addon_author a = Js.nullish (gv_authors gv) (fm_owner_name m)
    /\ addon_installedVersion a
       = Js.nullish (gv_version gv) (rel_tag_name (fm_matched_release m))
    /\ addon_gameVersion a = getGameVersion env (Some (gv_interface gv))
    /\ addon_id a = uuidSource env (w_uuids w)
    /\ w_uuids w' = S (w_uuids w).
Proof.
  unfold resolvedVersion.
  getAddon_cases inst sr; intros [= <- <-];
    exists exactMatch, mv; rewrite ?Hmv, ?Hgvs; simpl;
    repeat split; reflexivity.
Qed.

Lemma getAddon_uuids inst ch sr w r w' :
  getAddon env inst ch sr w = (r, w') ->
  w_uuids w' = match r with Ok _ => S (w_uuids w) | Throw _ => w_uuids w end.
Proof.
  getAddon_cases inst sr; intros [= <- <-]; reflexivity.
Qed.

(** An addon [scan] put on a folder was built by [getAddon] from the scan
    result of the folder. *)
Lemma producedByScan_getAddon inst ch folders w af a :
  producedByScan env inst ch folders w af a ->
  exists srs w1 sr wa wb,
    scanMatches env inst folders w = (Ok srs, w1)
    /\ scanResultOf srs af = Some sr
    /\ getAddon env inst ch sr wa = (Ok a, wb).
Proof.
  intros (i & af' & Hi & Hi' & Ha & Hnew). revert Hi'. unfold scan.
  destruct (scanMatches env inst folders w) as [[srs|e] w1] eqn:Hm; simpl.
  - destruct (scanFolders env inst ch srs folders w1)
      as [[r folders'] w2] eqn:Hf.
    simpl. intros Hi'.
    apply scanFolders_steps in Hf as [_ Hall].
    destruct (Forall2_lookup_lr _ _ _ _ _ _ Hall Hi Hi')
      as [->|(sr & a0 & wa & wb & Hsr & Hget & ->)]; [done|].
    simpl in Ha. injection Ha as ->.
    by exists srs, w1, sr, wa, wb.
  - intros Hi'. rewrite Hi in Hi'. injection Hi' as <-. done.
Qed.

(** X9. Name, author, version and game version of an addon that [scan]
    puts on a folder come from one game version of the matched release:
    the one declared for the target variant when there is one, else the
    first one the release declares.  A missing title, author or version of
    that game version is replaced by the repository name, the owner name
    and the tag of the release. *)
Theorem scan_addon_from_resolved_version inst ch folders w af a :
  producedByScan env inst ch folders w af a ->
  exists srs w1 sr m gv,
    scanMatches env inst folders w = (Ok srs, w1)
    /\ scanResultOf srs af = Some sr
    /\ sr_exactMatch sr = Some m
    /\ resolvedVersion (fm_matched_release m)
         (getWowGameType (inst_clientType inst)) = Some gv
    /\ addon_name a = Js.nullish (gv_title gv) (fm_repository_name m)
    /\ addon_author a = Js.nullish (gv_authors gv) (fm_owner_name m)
    /\ addon_installedVersion a
       = Js.nullish (gv_version gv) (rel_tag_name (fm_matched_release m))
    /\ addon_gameVersion a = getGameVersion env (Some (gv_interface gv)).
Proof.
  intros Hp.
  apply producedByScan_getAddon in Hp
    as (srs & w1 & sr & wa & wb & Hm & Hsr & Hget).
  apply getAddon_fields in Hget
    as (m & gv & Hsome & Hgv & Hn & Ha & Hv & Hg & _).
  by exists srs, w1, sr, m, gv.
Qed.

(** X10. [shouldMigrate] is false for every addon that [scan] puts on a
    folder: its installed external release id is the decimal print of the
    id of the matched release, which is never empty. *)
Theorem scan_addons_need_no_migration inst ch folders w af a :
  producedByScan env inst ch folders w af a ->
  shouldMigrate a = false.
Proof.
  intros Hp.
  apply producedByScan_built in Hp
    as (srs & w1 & sr & m & _ & _ & _ & _ & _ & _ & _ & _ & Hid & _).
  unfold shouldMigrate, Js.falsy. rewrite Hid.
  apply String.eqb_neq, toString_nonempty.
Qed.

(** X11. Under the data invariant that a release declares at most one
    game version per variant, [getMatchingVersion] returns the declared
    game version of the variant wherever it stands in the list; without
    the invariant it returns some declared game version of the variant;
    and it returns nothing only when the release declares none. *)
Theorem getMatchingVersion_unique release gv :
  In gv (rel_game_versions release) ->
  (exists found,
      getMatchingVersion release (gv_game_type gv) = Some found
      /\ In found (rel_game_versions release)
      /\ gv_game_type found = gv_game_type gv)
  /\ (oneVersionPerType release ->
      getMatchingVersion release (gv_game_type gv) = Some gv).
Proof.
  intros Hin.
  assert (Hfound : exists found,
             getMatchingVersion release (gv_game_type gv) = Some found
             /\ In found (rel_game_versions release)
             /\ gv_game_type found = gv_game_type gv).
  { unfold getMatchingVersion.
    destruct (List.find _ (rel_game_versions release)) as [found|] eqn:Hfind.
    - apply find_some in Hfind as [Hf Heq]. exists found.
      repeat split; [done|].
      by destruct (gv_game_type found), (gv_game_type gv).
    - apply (find_none _ _ Hfind) in Hin.
      by destruct (gv_game_type gv). }
  split; [exact Hfound|].
  intros Hone. destruct Hfound as (found & -> & Hf & Htype).
  f_equal. by apply Hone.
Qed.

(** *** Identities *)

Lemma scanFolder_uuid inst ch srs af w r af' w' :
  scanFolder env inst ch srs af w = (r, af', w') ->
  (af' = af /\ w_uuids w' = w_uuids w)
  \/ (exists a,
         r = Ok tt /\ af' = set_matchingAddon a af
         /\ addon_id a = uuidSource env (w_uuids w)
         /\ w_uuids w' = S (w_uuids w)).
Proof.
  unfold scanFolder.
  destruct (List.find _ srs) as [sr|]; [|intros [= <- <- <-]; by left].
  destruct (sr_exactMatch sr) as [m|]; [|intros [= <- <- <-]; by left].
  destruct (getAddon env inst ch sr w) as [[a|e] w1] eqn:Hget;
    intros [= <- <- <-].
  - right. exists a.
    apply getAddon_fields in Hget as (_ & _ & _ & _ & _ & _ & _ & _ & Hid & Hn).
    done.
  - left. apply getAddon_uuids in Hget. done.
Qed.

Lemma scanFolders_uuid_at inst ch srs folders w r folders' w' :
  scanFolders env inst ch srs folders w = (r, folders', w') ->
  (w_uuids w <= w_uuids w')%nat
  /\ forall i af af' a,
       folders !! i = Some af ->
       folders' !! i = Some af' ->
       folder_matchingAddon af' = Some a ->
       folder_matchingAddon af <> Some a ->
       exists n,
         addon_id a = uuidSource env n
         /\ (w_uuids w <= n < w_uuids w')%nat.
Proof.
  revert w r folders' w'.
  induction folders as [|af rest IH]; intros w r folders' w'; simpl.
  - intros [= <- <- <-]. split; [lia|]. intros i ? ? ? Hi. done.
  - destruct (scanFolder env inst ch srs af w) as [[[[]|e] af1] w1] eqn:Hstep;
      apply scanFolder_uuid in Hstep.
    + destruct (scanFolders env inst ch srs rest w1)
        as [[r2 rest2] w2] eqn:Hrest.
      intros [= <- <- <-]. apply IH in Hrest as [Hle Hat].
      split; [destruct Hstep as [[_ ?]|(? & _ & _ & _ & ?)]; lia|].
      intros [|i] af0 af0' a Hi Hi' Ha Hnew; simpl in Hi, Hi'.
      * injection Hi as <-. injection Hi' as <-.
        destruct Hstep as [[-> _]|(a0 & _ & -> & Hid & Hn)]; [done|].
        simpl in Ha. injection Ha as <-. exists (w_uuids w). split; [done|lia].
      * destruct (Hat i af0 af0' a Hi Hi' Ha Hnew) as (n & Hid & Hn).
        exists n. split; [done|].
        destruct Hstep as [[_ ?]|(? & _ & _ & _ & ?)]; lia.
    + intros [= <- <- <-].
      destruct Hstep as [[-> Hn]|(a0 & Hr & _)]; [|discriminate Hr].
      split; [lia|].
      intros i af0 af0' a Hi Hi' Ha Hnew.
      rewrite Hi in Hi'. injection Hi' as <-. done.
Qed.

Lemma scanFolders_uuid_order inst ch srs folders w r folders' w'
    i j afi afj afi' afj' ai aj :
  scanFolders env inst ch srs folders w = (r, folders', w') ->
  (i < j)%nat ->
  folders !! i = Some afi -> folders' !! i = Some afi' ->
  folder_matchingAddon afi' = Some ai -> folder_matchingAddon afi <> Some ai ->
  folders !! j = Some afj -> folders' !! j = Some afj' ->
  folder_matchingAddon afj' = Some aj -> folder_matchingAddon afj <> Some aj ->
  exists ni nj,
    addon_id ai = uuidSource env ni /\ addon_id aj = uuidSource env nj
    /\ (ni < nj)%nat.
Proof.
  revert w r folders' w' i j.
  induction folders as [|af rest IH]; intros w r folders' w' i j; simpl.
  - intros _ _ Hi. done.
  - destruct (scanFolder env inst ch srs af w) as [[[[]|e] af1] w1] eqn:Hstep;
      apply scanFolder_uuid in Hstep.
    + destruct (scanFolders env inst ch srs rest w1)
        as [[r2 rest2] w2] eqn:Hrest.
      intros [= <- <- <-] Hij Hi Hi' Hai Hnewi Hj Hj' Haj Hnewj.
      destruct j as [|j]; [lia|]. simpl in Hj, Hj'.
      destruct i as [|i]; simpl in Hi, Hi'.
      * injection Hi as <-. injection Hi' as <-.
        destruct Hstep as [[-> _]|(a0 & _ & -> & Hid & Hn)]; [done|].
        simpl in Hai. injection Hai as <-.
        apply scanFolders_uuid_at in Hrest as [_ Hat].
        destruct (Hat j afj afj' aj Hj Hj' Haj Hnewj) as (nj & Hidj & Hnj).
        exists (w_uuids w), nj. repeat split; [done..|lia].
      * eapply (IH _ _ _ _ i j Hrest); eauto. lia.
    + intros [= <- <- <-] Hij Hi Hi' Hai Hnewi.
      destruct Hstep as [[-> _]|(a0 & Hr & _)]; [|discriminate Hr].
      rewrite Hi in Hi'. injection Hi' as <-. done.
Qed.

(** X12. The addons one pass of [scan] puts on two different folders
    carry the results of two different calls of the uuid generator, the
    earlier folder the earlier call; when the generator never repeats
    itself, their ids differ. *)
Theorem scan_draws_fresh_uuids inst ch folders w
    i j afi afj afi' afj' ai aj :
  (i < j)%nat ->
  folders !! i = Some afi ->
  (scan env inst ch folders w).1.2 !! i = Some afi' ->
  folder_matchingAddon afi' = Some ai ->
  folder_matchingAddon afi <> Some ai ->
  folders !! j = Some afj ->
  (scan env inst ch folders w).1.2 !! j = Some afj' ->
  folder_matchingAddon afj' = Some aj ->
  folder_matchingAddon afj <> Some aj ->
  (exists ni nj,
      addon_id ai = uuidSource env ni /\ addon_id aj = uuidSource env nj
      /\ (ni < nj)%nat)
  /\ ((forall n n', uuidSource env n = uuidSource env n' -> n = n') ->
      addon_id ai <> addon_id aj).
Proof.
  intros Hij Hi Hi' Hai Hnewi Hj Hj' Haj Hnewj.
  assert (Hdraws : exists ni nj,
             addon_id ai = uuidSource env ni
             /\ addon_id aj = uuidSource env nj /\ (ni < nj)%nat).
  { revert Hi' Hj'. unfold scan.
    destruct (scanMatches env inst folders w) as [[srs|e] w1]; simpl.
    - destruct (scanFolders env inst ch srs folders w1)
        as [[r folders'] w2] eqn:Hloop.
      simpl. intros Hi' Hj'.
      by eapply (scanFolders_uuid_order _ _ _ _ _ _ _ _ i j _ _ _ _ ai aj Hloop).
    - intros Hi'. rewrite Hi in Hi'. injection Hi' as <-. done. }
  split; [exact Hdraws|].
  intros Hinj Hsame. destruct Hdraws as (ni & nj & Hni & Hnj & Hlt).
  rewrite Hni, Hnj in Hsame. apply Hinj in Hsame. lia.
Qed.

(** *** Search results *)

Lemma existsb_find {A} (p : A -> bool) (l : list A) :
  existsb p l = match List.find p l with Some _ => true | None => false end.
Proof.
  induction l as [|x l IH]; simpl; [done|]. by destruct (p x).
Qed.

Lemma filterReleases_hasGameType representation gameType :
  filterReleases representation gameType
  = List.filter (fun release => hasGameType release gameType)
      (rep_releases representation).
Proof.
  unfold filterReleases, hasGameType, getMatchingVersion.
  induction (rep_releases representation) as [|release l IH]; simpl; [done|].
  rewrite existsb_find, IH. reflexivity.
Qed.

(** X13. The files of a search result are, one for one and in the order
    of the catalogue entry, its releases that declare the target variant;
    a release that does not declare it has no file.  Each file carries
    the title, the authors and the interface of the game version its
    release declares for the variant, that game version's version (the
    tag of the release when the version is missing), and the id, download
    URL, date and body of the release. *)
Theorem getSearchResult_files representation gameType w :
  exists sr,
    getSearchResult env representation gameType w = (Ok sr, w)
    /\ Forall2
         (fun release file =>
            In release (rep_releases representation)
            /\ exists gv,
                 getMatchingVersion release gameType = Some gv
                 /\ file_title file = gv_title gv
                 /\ file_authors file = gv_authors gv
                 /\ file_gameVersion file
                    = getGameVersion env (Some (gv_interface gv))
                 /\ file_version file
                    = Js.nullish (gv_version gv) (rel_tag_name release)
                 /\ file_externalId file = Js.toString (rel_id release)
                 /\ file_downloadUrl file = rel_download_url release
                 /\ file_releaseDate file = rel_published_at release
                 /\ file_changelog file = rel_body release)
         (List.filter (fun release => hasGameType release gameType)
            (rep_releases representation))
         (res_files sr).
Proof.
  unfold getSearchResult, bind, newDate, ret. eexists. split; [reflexivity|].
  simpl. rewrite filterReleases_hasGameType.
  induction (rep_releases representation) as [|release l IH]; simpl;
    [constructor|].
  destruct (hasGameType release gameType) eqn:Hdeclares; simpl.
  - constructor.
    + split; [by left|].
      unfold hasGameType in Hdeclares. unfold getSearchResultFile.
      destruct (getMatchingVersion release gameType) as [gv|]; [|done].
      exists gv. simpl. repeat split; reflexivity.
    + eapply Forall2_impl; [exact IH|].
      intros r f [Hin Hgv]. split; [by right | exact Hgv].
  - eapply Forall2_impl; [exact IH|].
    intros r f [Hin Hgv]. split; [by right | exact Hgv].
Qed.

(** X14. A search result is named and authored after the first release,
    in the order of the catalogue entry, that declares the target variant:
    the title and authors of the game version it declares for the variant,
    replaced by the repository name and the owner name when missing.  When
    no release declares the variant the search result has no file and
    carries the repository name and the owner name.  Its thumbnail is the
    image of the addon, or the image of the owner when the addon has
    none. *)
Theorem getSearchResult_name_author representation gameType w :
  exists sr,
    getSearchResult env representation gameType w = (Ok sr, w)
    /\ match List.filter (fun release => hasGameType release gameType)
               (rep_releases representation) with
       | [] =>
           res_files sr = []
           /\ res_name sr = rep_repository_name representation
           /\ res_author sr = rep_owner_name representation
       | first :: _ =>
           exists gv,
             getMatchingVersion first gameType = Some gv
             /\ res_name sr
                = Js.nullish (gv_title gv)
                    (rep_repository_name representation)
             /\ res_author sr
                = Js.nullish (gv_authors gv) (rep_owner_name representation)
       end
    /\ res_thumbnailUrl sr
       = (if String.eqb (rep_image_url representation) ""
          then rep_owner_image_url representation
          else rep_image_url representation).
Proof.
  unfold getSearchResult, bind, newDate, ret. eexists. split; [reflexivity|].
  simpl. rewrite filterReleases_hasGameType. split; [|reflexivity].
  destruct (List.filter _ (rep_releases representation))
    as [|first rest] eqn:Hfilter; simpl; [done|].
  assert (Hin : In first
                  (List.filter (fun release => hasGameType release gameType)
                     (rep_releases representation)))
    by (rewrite Hfilter; by left).
  apply filter_In in Hin as [_ Hdeclares].
  unfold hasGameType in Hdeclares.
  destruct (getMatchingVersion first gameType) as [gv|]; [|done].
  exists gv. done.
Qed.

(** *** [getAll], further *)

Lemma mapM_getSearchResult gameType addons w :
  exists srs,
    mapM (fun a => getSearchResult env a gameType) addons w = (Ok srs, w)
    /\ List.map res_externalId srs
       = List.map (fun a => Js.toString (rep_id a)) addons.
Proof.
  induction addons as [|a addons IH]; simpl.
  - by exists [].
  - destruct (getSearchResult_run env a gameType w) as (sr & Hsr & Hid).
    destruct IH as (srs & Hsrs & Hids).
    exists (sr :: srs). unfold bind. rewrite Hsr. simpl. rewrite Hsrs. simpl.
    by rewrite Hid, Hids.
Qed.

(** What [getAll] returns once the batch request is answered. *)
Lemma getAll_run inst addonIds w url response :
  newURL env
    (API_URL env +:+ "/addons/batch/"
       +:+ gameTypeString env (getWowGameType (inst_clientType inst)))
    = Ok url ->
  httpPostBatch env (w_requests w) url (List.map Js.parseInt addonIds)
    = Ok response ->
  exists srs,
    getAll env inst addonIds w
    = (Ok {| errors :=
               List.map
                 (fun addonId =>
                    {| err_addonId := addonId; err_innerError := None |})
                 (List.filter
                    (fun addonId =>
                       match List.find
                               (fun sr => String.eqb (res_externalId sr) addonId)
                               srs with
                       | None => true
                       | Some _ => false
                       end)
                    addonIds);
             searchResults := srs |},
       add_request (PostAddonIds url (List.map Js.parseInt addonIds)) w)
    /\ List.map res_externalId srs
       = List.map (fun a => Js.toString (rep_id a))
           (match response with Some r => batch_addons r | None => [] end).
Proof.
  intros Hurl Hpost.
  unfold getAll, bind, liftResult, postJsonBatch.
  rewrite Hurl. simpl. rewrite Hpost.
  edestruct (mapM_getSearchResult (getWowGameType (inst_clientType inst)))
    as (srs & Hrun & Hids).
  rewrite Hrun. exists srs. split; [reflexivity | exact Hids].
Qed.

(** X15. [getAll] returns a result exactly when the batch URL can be
    built and the batch request is answered.  A URL that cannot be built
    fails the call before any request; a failed request fails the call
    with the error of the request: a transport failure is never turned
    into per-id errors. *)
Theorem getAll_returns_iff inst addonIds w :
  let target :=
    API_URL env +:+ "/addons/batch/"
      +:+ gameTypeString env (getWowGameType (inst_clientType inst)) in
  ((exists result w', getAll env inst addonIds w = (Ok result, w'))
   <-> exists url response,
         newURL env target = Ok url
         /\ httpPostBatch env (w_requests w) url
              (List.map Js.parseInt addonIds) = Ok response)
  /\ (forall e, newURL env target = Throw e ->
        getAll env inst addonIds w = (Throw e, w))
  /\ (forall url e,
        newURL env target = Ok url ->
        httpPostBatch env (w_requests w) url (List.map Js.parseInt addonIds)
          = Throw e ->
        getAll env inst addonIds w
        = (Throw e,
           add_request (PostAddonIds url (List.map Js.parseInt addonIds)) w)).
Proof.
  intros target.
  assert (Hurlfail : forall e, newURL env target = Throw e ->
            getAll env inst addonIds w = (Throw e, w)).
  { intros e Hurl. unfold getAll, bind, liftResult. fold target.
    by rewrite Hurl. }
  assert (Hpostfail : forall url e,
            newURL env target = Ok url ->
            httpPostBatch env (w_requests w) url
              (List.map Js.parseInt addonIds) = Throw e ->
            getAll env inst addonIds w
            = (Throw e,
               add_request
                 (PostAddonIds url (List.map Js.parseInt addonIds)) w)).
  { intros url e Hurl Hpost.
    unfold getAll, bind, liftResult, postJsonBatch. fold target.
    rewrite Hurl. simpl. by rewrite Hpost. }
  split; [split|split; assumption].
  - intros (result & w' & Hok).
    destruct (newURL env target) as [url|e] eqn:Hurl;
      [|rewrite (Hurlfail e eq_refl) in Hok; discriminate Hok].
    destruct (httpPostBatch env (w_requests w) url
                (List.map Js.parseInt addonIds)) as [response|e] eqn:Hpost;
      [by exists url, response|].
    rewrite (Hpostfail url e eq_refl Hpost) in Hok. discriminate Hok.
  - intros (url & response & Hurl & Hpost).
    destruct (getAll_run inst addonIds w url response Hurl Hpost)
      as (srs & Hrun & _).
    eauto.
Qed.

(** X16. When the answer to the batch request is [undefined] or lists no
    addon, [getAll] returns no search result and one
    [SourceRemovedAddonError] for every requested id, in the order of the
    request, duplicates included. *)
Theorem getAll_empty_response inst addonIds w url response :
  newURL env
    (API_URL env +:+ "/addons/batch/"
       +:+ gameTypeString env (getWowGameType (inst_clientType inst)))
    = Ok url ->
  httpPostBatch env (w_requests w) url (List.map Js.parseInt addonIds)
    = Ok response ->
  match response with Some r => batch_addons r | None => [] end = [] ->
  getAll env inst addonIds w
  = (Ok {| errors :=
             List.map
               (fun addonId =>
                  {| err_addonId := addonId; err_innerError := None |})
               addonIds;
           searchResults := [] |},
     add_request (PostAddonIds url (List.map Js.parseInt addonIds)) w).
Proof.
  intros Hurl Hpost Hempty.
  destruct (getAll_run inst addonIds w url response Hurl Hpost)
    as (srs & Hrun & Hids).
  rewrite Hempty in Hids. destruct srs as [|sr srs]; [|discriminate Hids].
  rewrite Hrun. simpl.
  assert (Hall : forall l : list string,
            List.filter (fun _ : string => true) l = l).
  { induction l as [|x l IH]; simpl; [done | by rewrite IH]. }
  by rewrite Hall.
Qed.

(** X17. For ids written as the decimal print of numbers (safe integers,
    which a double holds exactly), the batch request of [getAll] carries
    exactly those numbers, in order; and once the request is answered the
    ids reported as removed are exactly the requested numbers that no
    returned addon has. *)
Theorem getAll_decimal_ids inst (zs : list Z) w url :
  Forall (fun z => Z.abs z < 2 ^ 53) zs ->
  newURL env
    (API_URL env +:+ "/addons/batch/"
       +:+ gameTypeString env (getWowGameType (inst_clientType inst)))
    = Ok url ->
  exists r w',
    getAll env inst (List.map Js.toString zs) w = (r, w')
    /\ w_requests w'
       = (w_requests w ++ [PostAddonIds url (List.map Js.Int zs)])%list
    /\ forall response result,
         httpPostBatch env (w_requests w) url (List.map Js.Int zs)
           = Ok response ->
         r = Ok result ->
         forall z,
           In (Js.toString z) (List.map err_addonId (errors result))
           <-> In z zs
               /\ ~ In z
                    (List.map rep_id
                       (match response with
                        | Some p => batch_addons p
                        | None => []
                        end)).
Proof.
  intros _ Hurl.
  assert (Hparse : List.map Js.parseInt (List.map Js.toString zs)
                   = List.map Js.Int zs).
  { rewrite map_map. apply map_ext. intros z.
    apply parseInt_toString_exact. }
  destruct (httpPostBatch env (w_requests w) url (List.map Js.Int zs))
    as [response|e] eqn:Hpost.
  - rewrite <- Hparse in Hpost.
    destruct (getAll_run inst _ w url response Hurl Hpost)
      as (srs & Hrun & Hids).
    rewrite Hrun, Hparse. eexists _, _. split; [reflexivity|].
    split; [reflexivity|].
    intros response' result [= <-] [= <-] z. simpl.
    rewrite map_map. simpl. rewrite map_id, filter_In, in_map_iff.
    split.
    + intros [(z' & Hz' & Hin) Hfind].
      apply pretty_Z_inj in Hz' as ->. split; [done|].
      destruct (List.find _ srs) eqn:Hf; [done|].
      apply find_externalId_None in Hf. rewrite Hids in Hf.
      by apply (absentFrom_toString _ z) in Hf.
    + intros [Hin Habsent]. split; [by exists z|].
      apply (absentFrom_toString _ z) in Habsent.
      unfold absentFrom in Habsent. rewrite <- Hids in Habsent.
      apply find_externalId_None in Habsent. by rewrite Habsent.
  - exists (Throw e), (add_request (PostAddonIds url (List.map Js.Int zs)) w).
    split; [|split; [reflexivity | intros ? ? Hok; discriminate Hok]].
    unfold getAll, bind, liftResult, postJsonBatch.
    rewrite Hurl. simpl. rewrite Hparse, Hpost. reflexivity.
Qed.

(** *** Id validation *)

(** X18. What [isValidAddonId] does with an id that starts with the
    decimal print of a number.  The print of a negative number is
    rejected whatever text follows it.  When the text that follows does
    not start with a digit (or there is none): the print of a positive
    number (below [10^300]) is accepted, with or without a zero in front
    of it, and the print of zero is rejected.  So zero is not rejected
    whatever follows it: followed by the digits of a positive number it
    is accepted. *)
Theorem isValidAddonId_decimal (z : Z) (rest : string) :
  (z < 0 -> isValidAddonId (Js.toString z +:+ rest) = false)
  /\ (noLeadingDigit rest ->
      (0 < z < 10 ^ 300 ->
       isValidAddonId (Js.toString z +:+ rest) = true
       /\ isValidAddonId (Js.toString 0 +:+ Js.toString z +:+ rest) = true)
      /\ (z = 0 -> isValidAddonId (Js.toString z +:+ rest) = false)).
Proof.
  assert (Hbound : 10 ^ 300 < 2 ^ 1024 - 2 ^ 970) by (vm_compute; reflexivity).
  unfold isValidAddonId. split.
  - intros Hneg.
    destruct (parseInt_negative z rest Hneg) as (z' & -> & Hle). simpl.
    assert (Hgt : Z.ltb 0 z' = false) by (apply Z.ltb_ge; lia).
    rewrite Hgt. apply andb_false_r.
  - intros Hrest. split.
    + intros [Hpos Hlt].
      change (Js.toString 0) with "0".
      rewrite (parseInt_toString z rest Hrest),
        (parseInt_leading_zero z rest ltac:(lia) Hrest). simpl.
      assert (Hfin : Z.ltb (Z.abs z) (2 ^ 1024 - 2 ^ 970) = true)
        by (apply Z.ltb_lt; lia).
      assert (Hgt : Z.ltb 0 z = true) by (apply Z.ltb_lt; lia).
      rewrite Hfin, Hgt. split; reflexivity.
    + intros Hz. rewrite (parseInt_toString z rest Hrest). simpl.
      assert (Hgt : Z.ltb 0 z = false) by (apply Z.ltb_ge; lia).
      rewrite Hgt. apply andb_false_r.
Qed.

(** *** One addon in several folders *)

Lemma getAddon_same_match inst ch sr1 sr2 w1 w2 a1 a2 w1' w2' :
  sr_exactMatch sr1 = sr_exactMatch sr2 ->
  getAddon env inst ch sr1 w1 = (Ok a1, w1') ->
  getAddon env inst ch sr2 w2 = (Ok a2, w2') ->
  a2 = withIdentity (addon_id a2) (addon_installedAt a2) a1.
Proof.
  unfold getAddon, bind, ret, throw, console, uuidv4, newDate.
  intros <-.
  destruct (sr_exactMatch sr1) as [m|]; simpl; [|discriminate].
  destruct (getMatchingVersion (fm_matched_release m)
              (getWowGameType (inst_clientType inst))) as [mv|]; simpl.
  - intros [= <- <-] [= <- <-]. reflexivity.
  - destruct (rel_game_versions (fm_matched_release m)) as [|mv gvs]; simpl;
      [discriminate|].
    intros [= <- <-] [= <- <-]. reflexivity.
Qed.

(** X22. The addon [scan] builds for a folder depends on the folder only
    through its match: when the scan results of two folders carry the same
    match (two folders of one addon), the addons [scan] puts on them
    agree in every field but the id and the time of installation. *)
Theorem scan_same_match_same_addon inst ch folders w af1 a1 af2 a2 :
  producedByScan env inst ch folders w af1 a1 ->
  producedByScan env inst ch folders w af2 a2 ->
  (forall srs w1 sr1 sr2,
      scanMatches env inst folders w = (Ok srs, w1) ->
      scanResultOf srs af1 = Some sr1 ->
      scanResultOf srs af2 = Some sr2 ->
      sr_exactMatch sr1 = sr_exactMatch sr2) ->
  a2 = withIdentity (addon_id a2) (addon_installedAt a2) a1.
Proof.
  intros Hp1 Hp2 Hsame.
  apply producedByScan_getAddon in Hp1
    as (srs & w1 & sr1 & wa1 & wb1 & Hm & Hsr1 & Hget1).
  apply producedByScan_getAddon in Hp2
    as (srs2 & w2 & sr2 & wa2 & wb2 & Hm2 & Hsr2 & Hget2).
  rewrite Hm in Hm2. injection Hm2 as <- <-.
  eapply getAddon_same_match; [|exact Hget1|exact Hget2].
  by eapply Hsame.
Qed.

End ExtraProperties.

(** *** The catalogue queries *)

Section QueryProperties.

Variable env : Env.
Variable cachingTransaction : forall T : Type, string -> M T -> Z -> M T.
Variable httpGetAddon :
  list Request -> string -> Result (option WowUpGetAddonResponse).
Variable httpGetAddons :
  list Request -> string -> Result (option WowUpGetAddonsResponse).

(** X19. [getDescription] always returns.  When the lookup of the addon
    fails, and when its answer is [undefined], it logs the failure and
    returns the empty string.  When the answer holds the addon it returns
    the description of the addon; when the answer holds no addon it
    returns [undefined], not the empty string. *)
Theorem getDescription_never_throws inst externalId w :
  let lookup := getAddonById env cachingTransaction httpGetAddon externalId in
  let run := getDescription env cachingTransaction httpGetAddon inst externalId in
  (exists description w', run w = (Ok description, w'))
  /\ (forall e w1,
         lookup w = (Throw e, w1) ->
         run w
         = (Ok (Some ""),
            add_console (ConsoleError "Failed to get description" e) w1))
  /\ (forall w1,
         lookup w = (Ok None, w1) ->
         run w
         = (Ok (Some ""),
            add_console
              (ConsoleError "Failed to get description"
                 (undefinedRead "addon")) w1))
  /\ (forall representation w1,
         lookup w = (Ok (Some {| addon := Some representation |}), w1) ->
         run w = (Ok (Some (rep_description representation)), w1))
  /\ (forall w1,
         lookup w = (Ok (Some {| addon := None |}), w1) ->
         run w = (Ok None, w1)).
Proof.
  intros lookup run.
  assert (Hrun :
    run w
    = match lookup w with
      | (Ok (Some r), w1) => (Ok (rep_description <$> addon r), w1)
      | (Ok None, w1) =>
          (Ok (Some ""),
           add_console
             (ConsoleError "Failed to get description"
                (undefinedRead "addon")) w1)
      | (Throw e, w1) =>
          (Ok (Some ""),
           add_console (ConsoleError "Failed to get description" e) w1)
      end).
  { unfold run, getDescription, try_catch, bind. fold lookup.
    by destruct (lookup w) as [[[r|]|e] w1]. }
  repeat split.
  - rewrite Hrun. destruct (lookup w) as [[[r|]|e] w1]; eauto.
  - intros e w1 H. by rewrite Hrun, H.
  - intros w1 H. by rewrite Hrun, H.
  - intros representation w1 H. by rewrite Hrun, H.
  - intros w1 H. by rewrite Hrun, H.
Qed.

(** The tail of [getFeaturedAddons] and [searchByQuery]. *)
Lemma searchResults_of_response gameType response w :
  exists results,
    mapM (fun a => getSearchResult env a gameType)
      (match response with Some r => addons r | None => [] end) w
    = (Ok results, w)
    /\ List.map res_externalId results
       = List.map (fun a => Js.toString (rep_id a))
           (match response with Some r => addons r | None => [] end).
Proof. apply mapM_getSearchResult. Qed.

(** X20. [getFeaturedAddons] and [searchByQuery] return one search result
    per addon of the answer their cached lookup yields, in the order of
    the answer, and the empty list when the answer is [undefined]; unlike
    [getDescription] they catch nothing: a URL that cannot be built and a
    failed lookup fail the call with that error. *)
Theorem catalogue_queries_results inst query w :
  let gameType := getWowGameType (inst_clientType inst) in
  let outcome (target : string) (ttl : Z)
      (run : Result (list AddonSearchResult) * World) : Prop :=
    match newURL env target with
    | Throw e => run = (Throw e, w)
    | Ok url =>
        match cachingTransaction _ url (getJsonAddons httpGetAddons url)
                ttl w with
        | (Throw e, w1) => run = (Throw e, w1)
        | (Ok response, w1) =>
            exists results,
              run = (Ok results, w1)
              /\ List.map res_externalId results
                 = List.map (fun a => Js.toString (rep_id a))
                     (match response with
                      | Some r => addons r
                      | None => []
                      end)
        end
    end in
  outcome
    (API_URL env +:+ "/addons/featured/" +:+ gameTypeString env gameType
       +:+ "?count=60")
    CHANGELOG_CACHE_TTL_SEC
    (getFeaturedAddons env cachingTransaction httpGetAddons inst w)
  /\ outcome
       (API_URL env +:+ "/addons/search/" +:+ gameTypeString env gameType
          +:+ "?query=" +:+ query +:+ "&limit=10")
       5
       (searchByQuery env cachingTransaction httpGetAddons query inst w).
Proof.
  intros gameType outcome. unfold outcome. split.
  - unfold getFeaturedAddons, bind, liftResult. fold gameType.
    destruct (newURL env _) as [url|e]; [|done].
    destruct (cachingTransaction _ url _ _ w) as [[response|e] w1]; [|done].
    apply searchResults_of_response.
  - unfold searchByQuery, bind, liftResult. fold gameType.
    destruct (newURL env _) as [url|e]; [|done].
    destruct (cachingTransaction _ url _ _ w) as [[response|e] w1]; [|done].
    apply searchResults_of_response.
Qed.

(** X21. [getById] yields the search result of the addon its cached
    lookup returns, with the id of that addon.  It has no fallback: an
    answer that is [undefined] or holds no addon makes it fail with a
    [TypeError], and a failed lookup fails it with the error of the
    lookup. *)
Theorem getById_result addonId inst w :
  match newURL env (API_URL env +:+ "/addons/" +:+ addonId) with
  | Throw e =>
      getById env cachingTransaction httpGetAddon addonId inst w = (Throw e, w)
  | Ok url =>
      match cachingTransaction _ url (getJsonAddon httpGetAddon url)
              CHANGELOG_CACHE_TTL_SEC w with
      | (Throw e, w1) =>
          getById env cachingTransaction httpGetAddon addonId inst w
          = (Throw e, w1)
      | (Ok None, w1) =>
          getById env cachingTransaction httpGetAddon addonId inst w
          = (Throw (undefinedRead "addon"), w1)
      | (Ok (Some r), w1) =>
          match addon r with
          | None =>
              getById env cachingTransaction httpGetAddon addonId inst w
              = (Throw (undefinedRead "releases"), w1)
          | Some representation =>
              exists sr,
                getById env cachingTransaction httpGetAddon addonId inst w
                = (Ok sr, w1)
                /\ getSearchResult env representation
                     (getWowGameType (inst_clientType inst)) w1
                   = (Ok sr, w1)
                /\ res_externalId sr = Js.toString (rep_id representation)
          end
      end
  end.
Proof.
  unfold getById, bind, liftResult.
  destruct (newURL env _) as [url|e]; [|done].
  destruct (cachingTransaction _ url _ _ w) as [[[r|]|e] w1]; [|done..].
  destruct (addon r) as [representation|]; [|done].
  destruct (getSearchResult_run env representation
              (getWowGameType (inst_clientType inst)) w1) as (sr & Hsr & Hid).
  exists sr. by rewrite Hsr.
Qed.

End QueryProperties.

(** ** The further properties at work *)

Import MoreSamples.

(** X1 on the response that lists two releases of [bar]: the match of
    [fooFolder] is one of them and lists the fingerprint [f1]. *)
Lemma scan_match_lists_fingerprint_witness :
  exists srs' w' sr',
    scanMatches hubTwoReleases retailInstallation [fooFolder] world0
      = (Ok srs', w')
    /\ srs' !! 0%nat = Some sr'
    /\ sr_path sr' = sr_path fooScan
    /\ sr_fingerprint sr' = sr_fingerprint fooScan
    /\ sr_folderName sr' = sr_folderName fooScan
    /\ match sr_exactMatch sr' with
       | Some m =>
           In m [classicMatch; retailMatch]
           /\ hasMatchingFingerprint fooScan (fm_matched_release m) = true
       | None =>
           forall m,
             In m [classicMatch; retailMatch] ->
             hasMatchingFingerprint fooScan (fm_matched_release m) = false
       end.
Proof.
  apply (scan_match_lists_fingerprint hubTwoReleases retailInstallation
           [fooFolder] world0 [fooScan]
           {| exactMatches := [classicMatch; retailMatch] |} 0%nat fooScan);
    reflexivity.
Defined.

(** X3 on [quxFolder], whose content no release of [hubPrerelease]
    ships. *)
Lemma scan_skips_unmatched_folder_witness :
  fingerprintMatchesOf {| exactMatches := [retailMatch] |} quxScan = []
  /\ (scan hubPrerelease retailInstallation stable [fooFolder; quxFolder]
        world0).1.2 !! 1%nat = Some quxFolder.
Proof.
  split; [reflexivity|].
  apply (scan_skips_unmatched_folder hubPrerelease retailInstallation stable
           [fooFolder; quxFolder] world0 [fooScan; quxScan]
           {| exactMatches := [retailMatch] |} 1%nat quxFolder quxScan);
    reflexivity.
Defined.

(** X4 with the scanner down. *)
Lemma scan_scanner_failure_witness :
  exists w',
    scan hubScannerDown retailInstallation stable [fooFolder] world0
      = (Throw (IpcError "scanner down"), [fooFolder], w')
    /\ w_requests w' = w_requests world0
    /\ w_cache w' = w_cache world0
    /\ w_uuids w' = w_uuids world0.
Proof.
  apply (scan_scanner_failure hubScannerDown retailInstallation stable
           [fooFolder] world0 (IpcError "scanner down")).
  reflexivity.
Defined.

(** X5 with the circuit breaker open. *)
Lemma scan_lookup_failure_witness :
  exists w',
    scan hubLookupDown retailInstallation stable [fooFolder] world0
      = (Throw CircuitOpen, [fooFolder], w')
    /\ w_requests w'
       = (w_requests world0
            ++ [PostFingerprints (fingerprintUrl hubLookupDown)
                  (List.map sr_fingerprint [fooScan])])%list
    /\ w_uuids w' = w_uuids world0.
Proof.
  apply (scan_lookup_failure hubLookupDown retailInstallation stable
           [fooFolder] world0 [fooScan] CircuitOpen); reflexivity.
Defined.

(** The first loop of a pass over both folders when the scanner reports
    [fooScan] only. *)
Lemma halfScan_scanMatches :
  scanMatches hubHalfScan retailInstallation [fooFolder; quxFolder] world0
  = (Ok [set_exactMatch (Some retailMatch) fooScan],
     (scanMatches hubHalfScan retailInstallation [fooFolder; quxFolder]
        world0).2).
Proof. vm_compute. reflexivity. Qed.

(** X6 on that pass: [fooFolder] gets its addon, then the pass ends on
    [quxFolder], for which the scanner reported nothing. *)
Lemma scan_aborts_without_scan_result_witness :
  let srs := [set_exactMatch (Some retailMatch) fooScan] in
  let w0 :=
    (scanMatches hubHalfScan retailInstallation [fooFolder; quxFolder]
       world0).2 in
  let loop :=
    scanFolders hubHalfScan retailInstallation stable srs [fooFolder] w0 in
  scanResultOf srs quxFolder = None
  /\ List.map folder_matchingAddon loop.1.2 = [Some fooAddon]
  /\ scan hubHalfScan retailInstallation stable
       ([fooFolder] ++ quxFolder :: [])%list world0
     = (Throw (undefinedRead "exactMatch"),
        (loop.1.2 ++ quxFolder :: [])%list, loop.2).
Proof.
  split; [reflexivity|]. split; [vm_compute; reflexivity|].
  apply (scan_aborts_without_scan_result hubHalfScan retailInstallation
           stable [fooFolder] quxFolder [] world0
           [set_exactMatch (Some retailMatch) fooScan]
           (scanMatches hubHalfScan retailInstallation [fooFolder; quxFolder]
              world0).2).
  - exact halfScan_scanMatches.
  - vm_compute. reflexivity.
  - reflexivity.
Defined.

(** X7 on the pass against [hubBare]: one warning, for [Foo]. *)
Lemma scan_fallback_warnings_witness :
  List.filter
    (needsFallback WowGameType.Retail
       {| exactMatches := [bareMatch; quxMatch] |})
    [fooScan; quxScan] = [fooScan]
  /\ exists srs' w',
       scanMatches hubBare retailInstallation [fooFolder; quxFolder] world0
         = (Ok srs', w')
       /\ w_console w'
          = [ConsoleTime "WowUpScan"; ConsoleTimeEnd "WowUpScan";
             ConsoleLog "[WowUpFingerprints]" ["f1"; "f9"];
             ConsoleWarn
               "No matching client type found for Foo, using fallback"].
Proof.
  split; [reflexivity|].
  destruct (scan_fallback_warnings hubBare retailInstallation
              [fooFolder; quxFolder] world0 [fooScan; quxScan]
              {| exactMatches := [bareMatch; quxMatch] |} eq_refl eq_refl)
    as (srs' & w' & Hrun & Hconsole & _).
  exists srs', w'. split; [exact Hrun | exact Hconsole].
Defined.

(** X8 on the release without game versions and on the prerelease. *)
Lemma getAddon_returns_iff_witness :
  getAddon hubBare retailInstallation stable
    (set_exactMatch (Some bareMatch) fooScan) world0
  = (Throw (undefinedRead "interface"), world0)
  /\ exists a w',
       getAddon hubPrerelease retailInstallation stable
         (set_exactMatch (Some retailMatch) fooScan) world0 = (Ok a, w').
Proof.
  split.
  - apply (getAddon_returns_iff hubBare retailInstallation stable
             (set_exactMatch (Some bareMatch) fooScan) bareMatch world0
             eq_refl).
    reflexivity.
  - apply (getAddon_returns_iff hubPrerelease retailInstallation stable
             (set_exactMatch (Some retailMatch) fooScan) retailMatch world0
             eq_refl).
    discriminate.
Defined.

(** X9 on [fooAddon]. *)
Lemma scan_addon_from_resolved_version_witness :
  exists srs w1 sr m gv,
    scanMatches hubPrerelease retailInstallation [fooFolder] world0
      = (Ok srs, w1)
    /\ scanResultOf srs fooFolder = Some sr
    /\ sr_exactMatch sr = Some m
    /\ resolvedVersion (fm_matched_release m)
         (getWowGameType (inst_clientType retailInstallation)) = Some gv
    /\ addon_name fooAddon = Js.nullish (gv_title gv) (fm_repository_name m)
    /\ addon_author fooAddon = Js.nullish (gv_authors gv) (fm_owner_name m)
    /\ addon_installedVersion fooAddon
       = Js.nullish (gv_version gv) (rel_tag_name (fm_matched_release m))
    /\ addon_gameVersion fooAddon
       = getGameVersion hubPrerelease (Some (gv_interface gv)).
Proof.
  exact (scan_addon_from_resolved_version hubPrerelease retailInstallation
           stable [fooFolder] world0 fooFolder fooAddon fooAddon_produced).
Defined.

(** X10 on [fooAddon]. *)
Lemma scan_addons_need_no_migration_witness : shouldMigrate fooAddon = false.
Proof.
  exact (scan_addons_need_no_migration hubPrerelease retailInstallation
           stable [fooFolder] world0 fooFolder fooAddon fooAddon_produced).
Defined.

(** X11 on a release that declares the classic variant before the retail
    one. *)
Lemma getMatchingVersion_unique_witness :
  oneVersionPerType bothVariants
  /\ getMatchingVersion bothVariants WowGameType.Retail = Some gvRetail.
Proof.
  assert (Hone : oneVersionPerType bothVariants).
  { intros gv1 gv2 [<-|[<-|[]]] [<-|[<-|[]]] Htype;
      try reflexivity; discriminate Htype. }
  split; [exact Hone|].
  apply (getMatchingVersion_unique bothVariants gvRetail);
    [right; left; reflexivity | exact Hone].
Defined.

(** X12 on the pass against [hubBoth], which builds an addon for each of
    the two folders. *)
Lemma scan_draws_fresh_uuids_witness :
  addon_id (bothAddon 0) = "uuid-0"
  /\ addon_id (bothAddon 1) = "uuid-1"
  /\ exists ni nj,
       addon_id (bothAddon 0) = uuidSource hubBoth ni
       /\ addon_id (bothAddon 1) = uuidSource hubBoth nj
       /\ (ni < nj)%nat.
Proof.
  split; [vm_compute; reflexivity|]. split; [vm_compute; reflexivity|].
  apply (scan_draws_fresh_uuids hubBoth retailInstallation stable
           [fooFolder; quxFolder] world0 0%nat 1%nat fooFolder quxFolder
           (set_matchingAddon (bothAddon 0) fooFolder)
           (set_matchingAddon (bothAddon 1) quxFolder)
           (bothAddon 0) (bothAddon 1)).
  - lia.
  - reflexivity.
  - vm_compute. reflexivity.
  - reflexivity.
  - discriminate.
  - reflexivity.
  - vm_compute. reflexivity.
  - reflexivity.
  - discriminate.
Defined.

(** X16 on a hub that returns no addon: every id is reported. *)
Lemma getAll_empty_response_witness :
  getAll hubEmptyBatch retailInstallation ["7"; "8"; "7"] world0
  = (Ok {| errors :=
             [ {| err_addonId := "7"; err_innerError := None |};
               {| err_addonId := "8"; err_innerError := None |};
               {| err_addonId := "7"; err_innerError := None |} ];
           searchResults := [] |},
     add_request
       (PostAddonIds "https://hub.example/addons/batch/retail"
          [Js.Int 7; Js.Int 8; Js.Int 7]) world0).
Proof.
  exact (getAll_empty_response hubEmptyBatch retailInstallation
           ["7"; "8"; "7"] world0 "https://hub.example/addons/batch/retail"
           (Some {| batch_addons := [] |}) eq_refl eq_refl eq_refl).
Defined.

(** X17 on the ids 1, 2 and 3 against the hub that returns 1 and 3. *)
Lemma getAll_decimal_ids_witness :
  exists r w',
    getAll hubBatch retailInstallation (List.map Js.toString [1; 2; 3]) world0
      = (r, w')
    /\ w_requests w'
       = (w_requests world0
            ++ [PostAddonIds "https://hub.example/addons/batch/retail"
                  (List.map Js.Int [1; 2; 3])])%list.
Proof.
  assert (Hsafe : Forall (fun z => Z.abs z < 2 ^ 53) [1; 2; 3])
    by (repeat constructor).
  destruct (getAll_decimal_ids hubBatch retailInstallation [1; 2; 3] world0
              "https://hub.example/addons/batch/retail" Hsafe eq_refl)
    as (r & w' & Hrun & Hrequests & _).
  exists r, w'. split; [exact Hrun | exact Hrequests].
Defined.

(** X18 on ids with text after the number: [12abc] and [012abc] are
    accepted, [0abc] is rejected, and [-57] is rejected as the print of
    [-5] followed by a digit. *)
Lemma isValidAddonId_decimal_witness :
  isValidAddonId "12abc" = true
  /\ isValidAddonId "012abc" = true
  /\ isValidAddonId "0abc" = false
  /\ isValidAddonId "-57" = false.
Proof.
  assert (H12 : 0 < 12 < 10 ^ 300) by (split; [lia | vm_compute; reflexivity]).
  destruct (isValidAddonId_decimal 12 "abc") as [_ Habc].
  destruct (Habc eq_refl) as [Hpos _]. destruct (Hpos H12) as [Hplain Hzero].
  split; [exact Hplain|]. split; [exact Hzero|]. split.
  - apply (proj2 (isValidAddonId_decimal 0 "abc") eq_refl). reflexivity.
  - apply (proj1 (isValidAddonId_decimal (-5) "7")). lia.
Defined.

(** Zero followed by a digit is not rejected: [05] reads as five. *)
Example isValidAddonId_zero_then_digit :
  isValidAddonId (Js.toString 0 +:+ "5") = true.
Proof. reflexivity. Qed.

(** [getDescription] against an answer that holds no addon: the result is
    [undefined]. *)
Example getDescription_without_addon :
  getDescription hubPrerelease noCache
    (addonEndpoint (Ok (Some {| addon := None |}))) retailInstallation "1"
    world0
  = (Ok None, add_request (GetJson "https://hub.example/addons/1") world0).
Proof. reflexivity. Qed.

(** [getById] against the same answer: a [TypeError]. *)
Example getById_without_addon :
  getById hubPrerelease noCache
    (addonEndpoint (Ok (Some {| addon := None |}))) "1" retailInstallation
    world0
  = (Throw (undefinedRead "releases"),
     add_request (GetJson "https://hub.example/addons/1") world0).
Proof. reflexivity. Qed.

(** [searchByQuery] against an answer that is [undefined]: no result. *)
Example searchByQuery_undefined_answer :
  (searchByQuery hubPrerelease noCache (addonsEndpoint (Ok None)) "bar"
     retailInstallation world0).1
  = Ok [].
Proof. reflexivity. Qed.

(** The first loop of a pass over both folders against [hubPair]. *)
Lemma pair_scanMatches :
  scanMatches hubPair retailInstallation [fooFolder; quxFolder] world0
  = (Ok [set_exactMatch (Some pairMatch) fooScan;
         set_exactMatch (Some pairMatch) quxScan],
     (scanMatches hubPair retailInstallation [fooFolder; quxFolder]
        world0).2).
Proof. vm_compute. reflexivity. Qed.

(** X22 on that pass: both folders belong to the one release; their
    addons differ in the id only. *)
Lemma scan_same_match_same_addon_witness :
  addon_id (pairAddon 0) = "uuid-0"
  /\ addon_id (pairAddon 1) = "uuid-1"
  /\ pairAddon 1
     = withIdentity (addon_id (pairAddon 1))
         (addon_installedAt (pairAddon 1)) (pairAddon 0).
Proof.
  split; [vm_compute; reflexivity|]. split; [vm_compute; reflexivity|].
  apply (scan_same_match_same_addon hubPair retailInstallation stable
           [fooFolder; quxFolder] world0 fooFolder (pairAddon 0) quxFolder
           (pairAddon 1)).
  - exists 0%nat, (set_matchingAddon (pairAddon 0) fooFolder).
    split; [reflexivity|]. split; [vm_compute; reflexivity|].
    split; [reflexivity | discriminate].
  - exists 1%nat, (set_matchingAddon (pairAddon 1) quxFolder).
    split; [reflexivity|]. split; [vm_compute; reflexivity|].
    split; [reflexivity | discriminate].
  - intros srs w1 sr1 sr2 Hm. rewrite pair_scanMatches in Hm.
    injection Hm as <- _. intros [= <-] [= <-]. reflexivity.
Defined.
